(** * SISEPUEDE command-line runtime: dimension resolution and dispatch

  A shallow embedding of [python/sisepuede_cl.py] (the selectors
  [get_models], [get_regions], the resolver [get_dimensional_dict], the
  reader [get_dimensional_values] and the entry point [main]) and of the
  sibling reader [get_dimensional_values] of [python/support_functions.py],
  followed by the properties of the dispatch front end. *)

From Stdlib Require Import ZArith String Ascii List.
From stdpp Require Import base option list strings gmap pretty sorting.

Local Open Scope string_scope.
Local Open Scope Z_scope.

(** ** Python values, exceptions and the builtins the program calls *)

Module Py.

(** A binary64 value: not-a-number, an infinity, or the finite number
    [m * 2 ^ e]. *)
Inductive pyfloat :=
| FNan
| FInf (negative : bool)
| FFinite (m e : Z).

(** Scalars: what a token of a command-line string or a cell of a data
    frame column can be. *)
Inductive scalar :=
| SBool (b : bool)
| SInt (z : Z)
| SFloat (f : pyfloat)
| SStr (s : string).

(** Values bound to the keys of the argument dictionary. *)
Inductive PyVal :=
| PyNone
| PyScalar (x : scalar)
| PyList (l : list scalar).

Definition PyStr (s : string) : PyVal := PyScalar (SStr s).
Definition PyInt (z : Z) : PyVal := PyScalar (SInt z).
Definition PyBool (b : bool) : PyVal := PyScalar (SBool b).

#[global] Instance pyfloat_eq_dec : EqDecision pyfloat.
Proof. solve_decision. Defined.
#[global] Instance scalar_eq_dec : EqDecision scalar.
Proof. solve_decision. Defined.
#[global] Instance PyVal_eq_dec : EqDecision PyVal.
Proof. solve_decision. Defined.

(** Exceptions. A message is kept as the pieces of the format string that
    built it: literal text (a [str] interpolates as itself), the [repr] of
    a string, the first [n] characters of that [repr] (the conversion
    [%.nR] of the interpreter's own messages), or the [str] of a caught
    exception. *)
Inductive exn_class :=
| RuntimeError
| ValueError
| TypeError
| OverflowError
| AttributeError
| KeyError
| FileNotFoundError
| OtherError (name : string).

Inductive exn :=
| Exn (cls : exn_class) (msg : list part)
with part :=
| Lit (s : string)
| ReprOf (s : string)
| ReprCut (n : nat) (s : string)
| StrOf (e : exn).

(** The outcome of a call: a returned value or a raised exception. *)
Inductive result (A : Type) :=
| Ok (a : A)
| Err (e : exn).
Arguments Ok {A} a.
Arguments Err {A} e.

#[global] Instance result_ret : MRet result := λ A a, Ok a.
#[global] Instance result_bind : MBind result :=
  λ A B f m, match m with Ok a => f a | Err e => Err e end.
#[global] Instance result_fmap : FMap result :=
  λ A B f m, match m with Ok a => Ok (f a) | Err e => Err e end.

(** [try: body except Exception as e: raise handler(e)] *)
Definition try_except {A} (body : result A) (handler : exn → exn) : result A :=
  match body with
  | Ok a => Ok a
  | Err e => Err (handler e)
  end.

(** *** [str.upper], on the ASCII letters.  The program only compares its
    result with ["ALL"], and no character outside ASCII has [A] or [L] as
    its upper case. *)
Definition upper_ascii (c : ascii) : ascii :=
  let n := N_of_ascii c in
  if ((97 <=? n) && (n <=? 122))%N then ascii_of_N (n - 32) else c.

Fixpoint upper (s : string) : string :=
  match s with
  | EmptyString => EmptyString
  | String c s' => String (upper_ascii c) (upper s')
  end.

(** *** [str.split(sep)] with an explicit separator: the pieces between
    the leftmost non-overlapping occurrences of [sep]; an empty separator
    is a [ValueError]. *)
Fixpoint split_go (sep : string) (s : string) (skip : nat) (acc : string)
  : list string :=
  match s with
  | EmptyString => [String.rev acc]
  | String c s' =>
      match skip with
      | S k => split_go sep s' k acc
      | O =>
          if String.prefix sep s
          then String.rev acc :: split_go sep s' (String.length sep - 1) EmptyString
          else split_go sep s' O (String c acc)
      end
  end.

Definition split (s sep : string) : result (list string) :=
  match sep with
  | EmptyString => Err (Exn ValueError [Lit "empty separator"])
  | _ => Ok (split_go sep s O EmptyString)
  end.

(** *** [int(x)] *)

(** A [str] is a sequence of code points; a [string] holds its UTF-8
    bytes.  [code_points] decodes them, shortest forms only.  Bytes that
    are not UTF-8 reach a [str] as lone surrogates: the decoding ends there
    with one surrogate, which is all that [int] reads of them. *)
Definition utf8_scalar (lo cp : N) : bool :=
  ((lo <=? cp) && (cp <=? 1114111) && negb ((55296 <=? cp) && (cp <=? 57343)))%N.

Fixpoint code_points_go (pending : nat) (lo acc : N) (s : string) : list N :=
  match s with
  | EmptyString => match pending with O => [] | S _ => [56448%N] end
  | String c s' =>
      let b := N_of_ascii c in
      match pending with
      | O =>
          if (b <? 128)%N then b :: code_points_go 0 0 0 s'
          else if ((192 <=? b) && (b <? 224))%N
          then code_points_go 1 128 (b - 192) s'
          else if ((224 <=? b) && (b <? 240))%N
          then code_points_go 2 2048 (b - 224) s'
          else if ((240 <=? b) && (b <? 248))%N
          then code_points_go 3 65536 (b - 240) s'
          else [56448%N]
      | S k =>
          if ((128 <=? b) && (b <? 192))%N
          then let cp := (64 * acc + (b - 128))%N in
               match k with
               | O => if utf8_scalar lo cp
                      then cp :: code_points_go 0 0 0 s'
                      else [56448%N]
               | S _ => code_points_go k lo cp s'
               end
          else [56448%N]
      end
  end.

Definition code_points (s : string) : list N := code_points_go 0 0 0 s.

(** [Py_UNICODE_ISSPACE] above code point 127. *)
Definition unicode_spaces : list N :=
  [133; 160; 5760; 8192; 8193; 8194; 8195; 8196; 8197; 8198; 8199; 8200;
   8201; 8202; 8232; 8233; 8239; 8287; 12288]%N.

Definition unicode_isspace (cp : N) : bool := bool_decide (cp ∈ unicode_spaces).

(** [Py_UNICODE_TODECIMAL]: the decimal digits come in runs of ten, 0 to 9;
    these are the code points of the zeros (Unicode 14.0, the database of
    CPython 3.11). *)
Definition unicode_zeros : list N :=
  [48; 1632; 1776; 1984; 2406; 2534; 2662; 2790; 2918; 3046; 3174; 3302;
   3430; 3558; 3664; 3792; 3872; 4160; 4240; 6112; 6160; 6470; 6608;
   6784; 6800; 6992; 7088; 7232; 7248; 42528; 43216; 43264; 43472; 43504;
   43600; 44016; 65296; 66720; 68912; 69734; 69872; 69942; 70096; 70384;
   70736; 70864; 71248; 71360; 71472; 71904; 72016; 72784; 73040; 73120;
   92768; 92864; 93008; 120782; 120792; 120802; 120812; 120822; 123200;
   123632; 125264; 130032]%N.

Definition unicode_todecimal (cp : N) : option N :=
  (λ zero, cp - zero)%N
    <$> List.find (λ zero, (zero <=? cp) && (cp <? zero + 10))%N unicode_zeros.

(** [_PyUnicode_TransformDecimalAndSpaceToASCII]: code points below 127
    stay, a space becomes [" "], a decimal digit its ASCII digit, and the
    text is cut with a ["?"] at the first other code point. *)
Fixpoint transform_decimal_and_space (cps : list N) : string :=
  match cps with
  | [] => EmptyString
  | cp :: cps' =>
      if (cp <? 127)%N
      then String (ascii_of_N cp) (transform_decimal_and_space cps')
      else if unicode_isspace cp
      then String " " (transform_decimal_and_space cps')
      else match unicode_todecimal cp with
           | Some d => String (ascii_of_N (48 + d)) (transform_decimal_and_space cps')
           | None => "?"
           end
  end.

(** An ASCII [str] is handed on as it is. *)
Definition decimal_and_space_to_ascii (s : string) : string :=
  let cps := code_points s in
  if forallb (λ cp, cp <? 128)%N cps then s else transform_decimal_and_space cps.

(** [Py_ISSPACE]: the whitespace that the parser skips around a numeral. *)
Definition is_space (c : ascii) : bool :=
  let n := N_of_ascii c in
  (((9 <=? n) && (n <=? 13)) || (n =? 32))%N.

Definition digit_value (c : ascii) : option Z :=
  let n := N_of_ascii c in
  if ((48 <=? n) && (n <=? 57))%N then Some (Z.of_N (n - 48)) else None.

Fixpoint lstrip (s : string) : string :=
  match s with
  | String c s' => if is_space c then lstrip s' else s
  | EmptyString => EmptyString
  end.

(** The digits and underscores at the head of [s], and what follows them. *)
Fixpoint digit_run (s : string) : string * string :=
  match s with
  | String c s' =>
      if Ascii.eqb c "_" || bool_decide (is_Some (digit_value c))
      then let '(run, rest) := digit_run s' in (String c run, rest)
      else (EmptyString, s)
  | EmptyString => (EmptyString, EmptyString)
  end.

(** The value of a run: decimal digits, single underscores allowed between
    two digits. *)
Fixpoint digits (after_digit : bool) (acc : Z) (s : string) : option Z :=
  match s with
  | EmptyString => if after_digit then Some acc else None
  | String c s' =>
      if Ascii.eqb c "_"
      then (if after_digit then digits false acc s' else None)
      else match digit_value c with
           | Some d => digits true (10 * acc + d) s'
           | None => None
           end
  end.

Fixpoint count_digits (s : string) : N :=
  match s with
  | EmptyString => 0
  | String c s' =>
      ((if bool_decide (is_Some (digit_value c)) then 1 else 0) + count_digits s')%N
  end.

(** [sys.int_info.default_max_str_digits] *)
Definition int_max_str_digits : N := 4300.

Definition invalid_literal (s : string) : exn :=
  Exn ValueError [Lit "invalid literal for int() with base 10: "; ReprCut 200 s].

Definition exceeds_max_str_digits (n : N) : exn :=
  Exn ValueError
    [Lit "Exceeds the limit ("; Lit (pretty int_max_str_digits);
     Lit " digits) for integer string conversion: value has "; Lit (pretty n);
     Lit " digits; use sys.set_int_max_str_digits() to increase the limit"].

(** [int(s)] for a string, base 10, in the order of [PyLong_FromString]:
    leading whitespace, a sign, the run of digits and underscores (whose
    underscores are checked, then its number of digits against the limit),
    trailing whitespace, and nothing more. *)
Definition int_of_str (s : string) : result Z :=
  let text := lstrip (decimal_and_space_to_ascii s) in
  let '(negative, numeral) :=
    match text with
    | String "-" s' => (true, s')
    | String "+" s' => (false, s')
    | _ => (false, text)
    end in
  let '(run, rest) := digit_run numeral in
  match digits false 0 run with
  | None => Err (invalid_literal s)
  | Some z =>
      if (int_max_str_digits <? count_digits run)%N
      then Err (exceeds_max_str_digits (count_digits run))
      else match lstrip rest with
           | EmptyString => Ok (if negative then - z else z)
           | _ => Err (invalid_literal s)
           end
  end.

Definition int_of_float (f : pyfloat) : result Z :=
  match f with
  | FNan => Err (Exn ValueError [Lit "cannot convert float NaN to integer"])
  | FInf _ => Err (Exn OverflowError [Lit "cannot convert float infinity to integer"])
  | FFinite m e => Ok (if (0 <=? e)%Z then (m * 2 ^ e)%Z else Z.quot m (2 ^ (- e)))
  end.

Definition py_int (x : scalar) : result Z :=
  match x with
  | SBool b => Ok (if b then 1 else 0)
  | SInt z => Ok z
  | SFloat f => int_of_float f
  | SStr s => int_of_str s
  end.

(** *** [str(x)].  The decimal text of a float is the interpreter's
    shortest round-trip printer, taken as given. *)
Section Str.
Variable float_repr : pyfloat → string.

Definition py_str (x : scalar) : result string :=
  match x with
  | SBool b => Ok (if b then "True" else "False")
  | SInt z => Ok (pretty z)
  | SFloat f => Ok (float_repr f)
  | SStr s => Ok s
  end.
End Str.

(** *** Truth value of an object. *)
Definition truthy (v : PyVal) : bool :=
  match v with
  | PyNone => false
  | PyScalar (SBool b) => b
  | PyScalar (SInt z) => negb (z =? 0)
  | PyScalar (SFloat (FFinite m _)) => negb (m =? 0)
  | PyScalar (SFloat _) => true
  | PyScalar (SStr s) => negb (String.eqb s EmptyString)
  | PyList l => match l with [] => false | _ => true end
  end.

(** [isinstance(v, str)] *)
Definition as_str (v : PyVal) : option string :=
  match v with
  | PyScalar (SStr s) => Some s
  | _ => None
  end.

End Py.

Import Py.

(** ** The collaborators: pandas, the file system, the registries *)

(** A data frame as [pd.read_csv] returns it: the header names (which
    pandas makes unique) with their columns.  Column order plays no part. *)
Abbreviation DataFrame := (gmap string (list scalar)).

(** The file system: every existing path, with what [pd.read_csv] makes of
    it (a table, or the exception a directory or a malformed file raises). *)
Abbreviation FileSystem := (gmap string (result DataFrame)).

Definition os_path_exists (fs : FileSystem) (path : string) : bool :=
  bool_decide (is_Some (fs !! path)).

Definition pd_read_csv (fs : FileSystem) (path : string) : result DataFrame :=
  match fs !! path with
  | Some outcome => outcome
  | None =>
      Err (Exn FileNotFoundError [Lit "No such file or directory: "; ReprOf path])
  end.

(** [model_attributes.ModelAttributes], as far as this program reads it:
    the attribute tables by name and the four dimension keys. *)
Record AttributeTable := {
  key_values : list scalar;
  table : DataFrame
}.

Record ModelAttributes := {
  dict_attributes : gmap string AttributeTable;
  dim_design_id : string;
  dim_future_id : string;
  dim_primary_id : string;
  dim_strategy_id : string
}.

(** [support_classes.Regions]: its key, and the lookup
    [return_region_or_iso(x, return_type = "region")], which gives the
    region of a name or ISO code, or [None]. *)
Record Regions := {
  key : string;
  return_region_or_iso : string → option string
}.

(** [d.get(k)] on a dictionary of Python values. *)
Definition dict_get (d : gmap string PyVal) (k : string) : PyVal :=
  default PyNone (d !! k).

(** ** python/sisepuede_cl.py *)

Module sisepuede_cl.

Definition get_dimensional_values {A : Type} (fs : FileSystem)
    (keys_in : PyVal) (key : string) (delim : string)
    (return_type : scalar → result A) : result (option (list A)) :=
  match as_str keys_in with
  | None => Ok None
  | Some keys_in =>
      if os_path_exists fs keys_in then
        df ← try_except (pd_read_csv fs keys_in)
               (λ e, Exn RuntimeError
                       [Lit "Error trying to read keys from file "; Lit keys_in;
                        Lit ": "; StrOf e]);
        match df !! key with
        | None =>
            Err (Exn RuntimeError
                   [Lit "Error reading keys from file "; Lit keys_in;
                    Lit ": key '"; Lit key; Lit "' not found in the file."])
        | Some column =>
            values ← mapM return_type column;
            Ok (Some values)
        end
      else
        values ← try_except
                   (tokens ← split keys_in delim;
                    mapM return_type (SStr <$> tokens))
                   (λ e, Exn RuntimeError
                           [Lit "Error trying to read keys in input string: ";
                            StrOf e]);
        Ok (Some values)
  end.

Definition get_models (models : PyVal) (model_attributes : ModelAttributes)
    (delim : string) : result (option (list string)) :=
  match as_str models with
  | None => Ok None
  | Some models =>
      if String.eqb (upper models) "ALL" then Ok None
      else
        attr_subsector ←
          match dict_attributes model_attributes !! "abbreviation_sector" with
          | Some attr => Ok attr
          | None =>
              Err (Exn AttributeError
                     [Lit "'NoneType' object has no attribute 'key_values'"])
          end;
        sector ←
          match table attr_subsector !! "sector" with
          | Some column => Ok column
          | None => Err (Exn KeyError [ReprOf "sector"])
          end;
        let valid_models := (key_values attr_subsector ++ sector)%list in
        tokens ← split models delim;
        Ok (Some (filter (λ x, SStr x ∈ valid_models) tokens))
  end.

Section Regions.
Variable float_repr : pyfloat → string.

Definition get_regions (fs : FileSystem) (region_args : PyVal)
    (regions_obj : Regions) (delim : string)
  : result (option (list string)) :=
  match as_str region_args with
  | None => Ok (Some [])
  | Some region_args =>
      if String.eqb region_args "ALLREGIONS" then Ok None
      else
        regions ← get_dimensional_values fs (PyStr region_args)
                    (key regions_obj) delim (py_str float_repr);
        match regions with
        | None =>
            Err (Exn TypeError [Lit "'NoneType' object is not iterable"])
        | Some regions =>
            let regions : list (option string) :=
              return_region_or_iso regions_obj <$> (regions : list string) in
            let regions : list string := omap id regions in
            Ok (Some regions)
        end
  end.
End Regions.

(** The dictionary literal of [get_dimensional_dict]: a later entry
    replaces an earlier one with the same command-line key. *)
Definition dict_key_map (model_attributes : ModelAttributes)
    (cl_key_design cl_key_future cl_key_primary cl_key_strategy : string)
  : gmap string string :=
  <[cl_key_strategy := dim_strategy_id model_attributes]>
    (<[cl_key_primary := dim_primary_id model_attributes]>
       (<[cl_key_future := dim_future_id model_attributes]>
          (<[cl_key_design := dim_design_id model_attributes]> ∅))).

(** [dict_out.update({key: vals}) if vals is not None else None] *)
Definition update_if_not_none (dict_out : gmap string (list Z)) (key : string)
    (vals : option (list Z)) : gmap string (list Z) :=
  match vals with
  | Some vals => <[key := vals]> dict_out
  | None => dict_out
  end.

Section Resolver.
Variable fs : FileSystem.
Variable args : gmap string PyVal.
Variable key_map : gmap string string.

(** The loop over the command-line keys of the [else] branch.  Every key
    it visits was entered in [key_map], so the lookup is defined. *)
Fixpoint resolve_each (ks : list string) (dict_out : gmap string (list Z))
  : result (gmap string (list Z)) :=
  match ks with
  | [] => Ok dict_out
  | k :: ks =>
      let key := key_map !!! k in
      vals ← get_dimensional_values fs (dict_get args k) key "," py_int;
      resolve_each ks (update_if_not_none dict_out key vals)
  end.
End Resolver.

(** [args] is a dictionary by its type, so the first test of the source,
    [isinstance(args, dict)], holds. *)
Definition get_dimensional_dict (fs : FileSystem) (args : gmap string PyVal)
    (model_attributes : ModelAttributes)
    (cl_key_design cl_key_future cl_key_primary cl_key_strategy : string)
  : result (option (gmap string (list Z))) :=
  let dict_key_map :=
    dict_key_map model_attributes
      cl_key_design cl_key_future cl_key_primary cl_key_strategy in
  let dict_out : gmap string (list Z) := ∅ in
  dict_out ←
    (if bool_decide (dict_get args cl_key_primary ≠ PyNone) then
       let key := dict_key_map !!! cl_key_primary in
       vals ← get_dimensional_values fs (dict_get args cl_key_primary) key
                "," py_int;
       Ok (update_if_not_none dict_out key vals)
     else
       resolve_each fs args dict_key_map
         [cl_key_design; cl_key_future; cl_key_strategy] dict_out);
  Ok (if bool_decide (size dict_out = 0%nat) then None else Some dict_out).

(** *** The execution engine [sisepuede.SISEPUEDE], seen from [main] *)

(** The arguments of the constructor call. *)
Record InitArgs := {
  init_data_mode : string;
  init_db_type : PyVal;
  init_id_str : PyVal;
  init_n_trials : PyVal;
  init_random_seed : PyVal;
  init_regions : option (list string)
}.

(** The arguments of the call of the engine object. *)
Record RunRequest := {
  dict_scenarios : gmap string (list Z);
  chunk_size : Z;
  check_results : bool;
  include_electricity_in_energy : bool;
  max_attempts : PyVal;
  reinitialize_output_table_on_verification_failure : bool;
  save_inputs : PyVal
}.

(** An engine object: its [id] and what a call returns or raises. *)
Record SISEPUEDE := {
  sisepuede_id : string;
  call : RunRequest → result PyVal
}.

(** What [main] does to the engine, in order. *)
Inductive event :=
| Construct (a : InitArgs)
| Run (r : RunRequest)
| Log (msg : list part) (type_log : string).

(** A computation of [main]: the events so far, and a value or the
    exception that ended it. *)
Definition traced (A : Type) : Type := list event * result A.

#[global] Instance traced_ret : MRet traced := λ A a, ([], Ok a).
#[global] Instance traced_bind : MBind traced :=
  λ A B f m,
    match m with
    | (t, Ok a) => let '(t', r) := f a in ((t ++ t')%list, r)
    | (t, Err e) => (t, Err e)
    end.

Definition lift {A} (r : result A) : traced A := ([], r).
Definition raise {A} (e : exn) : traced A := ([], Err e).
Definition emit {A} (ev : event) (r : result A) : traced A := ([ev], r).

Definition newline : string := String (ascii_of_nat 10) EmptyString.

Definition msg_no_dimensions : string :=
  newline
  +:+ "        No valid dimensional subsets or scenarios were specified. Ensure that "
  +:+ newline
  +:+ "            either primary_id OR any combination of design_id, future_id, and/or"
  +:+ newline
  +:+ "            straetgy_id are specified."
  +:+ newline
  +:+ "        ".

(** What the process finds when it starts: the file system, the model
    attributes and regions read by [SISEPUEDEFileStructure] and [Regions],
    and the engine's constructor. *)
Record Environment := {
  env_fs : FileSystem;
  env_model_attributes : ModelAttributes;
  env_regions_obj : Regions;
  env_float_repr : pyfloat → string;
  env_SISEPUEDE : InitArgs → result SISEPUEDE
}.

Definition main (env : Environment) (args : gmap string PyVal) : traced Z :=
  let model_attributes := env_model_attributes env in
  let regions_obj := env_regions_obj env in
  (* 1. get inputs *)
  models ← lift (get_models (dict_get args "models") model_attributes ",");
  regions_run ← lift (get_regions (env_float_repr env) (env_fs env)
                        (dict_get args "regions") regions_obj ",");
  dict_scenarios ← lift (get_dimensional_dict (env_fs env) args model_attributes
                           "keys_design" "keys_future" "keys_primary"
                           "keys_strategy");
  match dict_scenarios with
  | None => raise (Exn RuntimeError [Lit msg_no_dimensions])
  | Some dict_scenarios =>
      let db_type := dict_get args "database_type" in
      let db_type :=
        if bool_decide (db_type ∉ [PyStr "sqlite"; PyStr "csv"])
        then PyStr "sqlite" else db_type in
      let id_str := dict_get args "id" in
      let include_fuel_prod := negb (truthy (dict_get args "exclude_fuel_production")) in
      let max_solve_attempts := dict_get args "max_solve_attempts" in
      let n_trials := dict_get args "n_trials" in
      let random_seed := dict_get args "random_seed" in
      let save_inputs := dict_get args "save_inputs" in
      (* checks; past the test above, [dict_scenarios is None] is false *)
      let return_none := bool_decide (regions_run = None) in
      let return_none :=
        return_none
        || (if negb return_none then bool_decide (size dict_scenarios = 0%nat)
            else false) in
      let return_none := return_none || false in
      if return_none then
        raise (Exn RuntimeError
                 [Lit "Invalid specification of regions, input dimensions. Check arguments and try again"])
      else
        (* 2. initialize SISEPUEDE and run *)
        let init := {|
          init_data_mode := "calibrated";
          init_db_type := db_type;
          init_id_str := id_str;
          init_n_trials := n_trials;
          init_random_seed := random_seed;
          init_regions := regions_run
        |} in
        sisepuede ← emit (Construct init) (env_SISEPUEDE env init);
        let request := {|
          dict_scenarios := dict_scenarios;
          chunk_size := 2;
          check_results := true;
          include_electricity_in_energy := include_fuel_prod;
          max_attempts := max_solve_attempts;
          reinitialize_output_table_on_verification_failure := true;
          save_inputs := save_inputs
        |} in
        dict_primaries_complete ← emit (Run request) (call sisepuede request);
        _ ← emit (Log [Lit "SISEPUEDE run '"; Lit (sisepuede_id sisepuede); Lit "' complete."]
                    "info") (Ok ());
        mret 0
  end.

End sisepuede_cl.

(** ** python/support_functions.py *)

Module support_functions.

(** A type passed as [return_type]: its call, [isinstance] on a scalar,
    and whether it is [str]. *)
Record pytype := {
  py_call : scalar → result scalar;
  py_isinstance : scalar → bool;
  py_is_str : bool
}.

Definition type_int : pytype := {|
  py_call := λ x, SInt <$> py_int x;
  py_isinstance := λ x, match x with SInt _ | SBool _ => true | _ => false end;
  py_is_str := false
|}.

(** [islistlike]: lists, arrays and ranges, here all of them lists. *)
Definition islistlike (x : PyVal) : option (list scalar) :=
  match x with
  | PyList l => Some l
  | _ => None
  end.

Definition get_dimensional_values (fs : FileSystem) (keys_in : PyVal)
    (key : string) (delim : string) (return_type : pytype)
  : result (option (list scalar)) :=
  match islistlike keys_in with
  | Some elements =>
      values ← try_except (mapM (py_call return_type) elements)
                 (λ e, Exn RuntimeError
                         [Lit "Error converting elements to integer in get_dimensional_values(): ";
                          StrOf e]);
      Ok (Some values)
  | None =>
      match keys_in with
      | PyScalar x =>
          if py_isinstance return_type x && negb (py_is_str return_type)
          then Ok (Some [x])
          else
            match x with
            | SStr keys_in =>
                if os_path_exists fs keys_in then
                  df ← try_except (pd_read_csv fs keys_in)
                         (λ e, Exn RuntimeError
                                 [Lit "Error trying to read keys from file ";
                                  Lit keys_in; Lit ": "; StrOf e]);
                  match df !! key with
                  | None =>
                      Err (Exn RuntimeError
                             [Lit "Error reading keys from file "; Lit keys_in;
                              Lit ": key '"; Lit key; Lit "' not found in the file."])
                  | Some column =>
                      values ← mapM (py_call return_type) column;
                      Ok (Some values)
                  end
                else
                  values ← try_except
                             (tokens ← split keys_in delim;
                              mapM (py_call return_type) (SStr <$> tokens))
                             (λ e, Exn RuntimeError
                                     [Lit "Error trying to read keys in input string: ";
                                      StrOf e]);
                  Ok (Some values)
            | _ => Ok None
            end
      | _ => Ok None
      end
  end.

(** The order of [str] values: by code point, which on the bytes of UTF-8
    text is the order of [String.compare]. *)
Definition str_le (a b : string) : Prop := String.leb a b = true.

#[global] Instance str_le_dec : RelDecision str_le.
Proof. intros a b. unfold str_le. apply _. Defined.

#[global] Instance str_le_total : Total str_le.
Proof. intros a b. apply String.leb_total. Qed.





Section SetIteration.
(** The order in which the interpreter iterates over a set. *)
Variable set_order : gset string → list string.

End SetIteration.

(** [filter_tuple(tup, ignore_inds)], [ignore_inds] an integer or a list of
    integers. *)
Definition filter_tuple {A : Type} (tup : list A) (ignore_inds : Z + list Z)
  : list A :=
  let ignore_inds :=
    match ignore_inds with
    | inl i => [i]
    | inr l => l
    end in
  let n := length tup in
  omap (λ x, if bool_decide (Z.of_nat x ∉ ignore_inds) then tup !! x else None)
    (seq 0 n).

Definition days_per_month (ym_tup : Z * Z) : option Z :=
  let year := ym_tup.1 in
  let month := ym_tup.2 in
  let dict_base : gmap Z Z :=
    list_to_map
      [(1, 31); (2, 28); (3, 31); (4, 30); (5, 31); (6, 30);
       (7, 31); (8, 31); (9, 30); (10, 31); (11, 30); (12, 31)] in
  let dict_base :=
    if year mod 4 =? 0 then <[2 := 29]> dict_base else dict_base in
  dict_base !! month.

(** [str_split(x, delim, return_type)]: the pieces, all converted, or all
    left as they are when a conversion raises. *)
Definition str_split (x : string) (delim : string) (return_type : pytype)
  : result (list scalar) :=
  out ← split x delim;
  let out := SStr <$> out in
  match mapM (py_call return_type) out with
  | Ok converted => Ok converted
  | Err _ => Ok out
  end.

(** A value of the dictionary that [reverse_dict] returns: a key, or a list
    of keys. *)
Inductive reversed (K : Type) :=
| One (k : K)
| Many (ks : list K).
Arguments One {K} k.
Arguments Many {K} ks.

Section ReverseDict.
Context {K V : Type} `{Countable K, Countable V}.

(** [dict_in] is the dictionary as the list of its items, in insertion
    order; the result is read through its lookups. *)
Definition items_get (dict_in : list (K * V)) (k : K) : option V :=
  (list_to_map dict_in : gmap K V) !! k.

Definition reverse_dict (dict_in : list (K * V))
    (allow_multi_keys force_list_values : bool)
  : result (gmap V (reversed K)) :=
  let s_vals : gset V := list_to_set dict_in.*2 in
  let s_keys : gset K := list_to_set dict_in.*1 in
  if bool_decide (size s_vals ≠ size s_keys) then
    if negb allow_multi_keys then
      Err (Exn KeyError
             [Lit "Invalid dicionary in reverse_dict: the dictionary is not injective."])
    else
      Ok (set_to_map
            (λ v, (v, Many (filter (λ k, items_get dict_in k = Some v)
                              dict_in.*1)))
            s_vals)
  else
    Ok (if negb force_list_values
        then list_to_map ((λ kv, (kv.2, One kv.1)) <$> reverse dict_in)
        else list_to_map ((λ kv, (kv.2, Many [kv.1])) <$> reverse dict_in)).
End ReverseDict.

End support_functions.

Import sisepuede_cl.

(** ** The calls [main] makes, and sample inputs *)

(** [get_dimensional_dict(args, model_attributes)], with the default
    command-line keys. *)
Abbreviation resolve fs args ma :=
  (get_dimensional_dict fs args ma
     "keys_design" "keys_future" "keys_primary" "keys_strategy").

Abbreviation key_map ma :=
  (dict_key_map ma "keys_design" "keys_future" "keys_primary" "keys_strategy").

Definition cl_keys : list string :=
  ["keys_primary"; "keys_design"; "keys_future"; "keys_strategy"].

Definition msg_invalid_specification : string :=
  "Invalid specification of regions, input dimensions. Check arguments and try again".

(** The dimension keys of the model attributes, without attribute tables. *)
Definition attrs0 : ModelAttributes := {|
  dict_attributes := ∅;
  dim_design_id := "design_id";
  dim_future_id := "future_id";
  dim_primary_id := "primary_id";
  dim_strategy_id := "strategy_id"
|}.

(** The sector table: abbreviations as keys, full names in column [sector]. *)
Definition sector_table : AttributeTable := {|
  key_values := [SStr "af"; SStr "ce"; SStr "en"; SStr "ip"];
  table :=
    {["sector" :=
        [SStr "AFOLU"; SStr "Circular Economy"; SStr "Energy"; SStr "IPPU"]]}
|}.

Definition attrs_sectors : ModelAttributes := {|
  dict_attributes := {["abbreviation_sector" := sector_table]};
  dim_design_id := "design_id";
  dim_future_id := "future_id";
  dim_primary_id := "primary_id";
  dim_strategy_id := "strategy_id"
|}.

Definition args_primary_design_future : gmap string PyVal :=
  <["keys_primary" := PyStr "10,11"]>
    (<["keys_design" := PyStr "1"]> (<["keys_future" := PyStr "2"]> ∅)).

Definition args_design_future_empty : gmap string PyVal :=
  <["keys_design" := PyStr "1,2"]>
    (<["keys_future" := PyStr EmptyString]> (<["keys_strategy" := PyNone]> ∅)).

Definition args_all_none : gmap string PyVal :=
  <["keys_design" := PyNone]>
    (<["keys_future" := PyNone]>
       (<["keys_primary" := PyNone]> {["keys_strategy" := PyNone]})).

(** Two files whose key column has a header and no rows. *)
Definition fs_empty_columns : FileSystem :=
  <["primaries.csv" := Ok ({["primary_id" := []]} : DataFrame)]>
    {["futures.csv" := Ok ({["future_id" := []]} : DataFrame)]}.

Definition args_primary_file : gmap string PyVal :=
  {["keys_primary" := PyStr "primaries.csv"]}.

Definition args_design_future_file : gmap string PyVal :=
  <["keys_design" := PyStr "1,2"]>
    (<["keys_future" := PyStr "futures.csv"]> (<["keys_strategy" := PyNone]> ∅)).

Definition futures_table : DataFrame :=
  <["future_id" := [SInt 0; SInt 5; SInt 12]]>
    {["note" := [SStr "a"; SStr "b"; SStr "c"]]}.

Definition fs_futures : FileSystem := {["futures.csv" := Ok futures_table]}.

(** A key column that pandas reads as text because one row is not a number. *)
Definition malformed_table : DataFrame :=
  {["future_id" := [SStr "1"; SStr "abc"; SStr "3"]]}.

Definition fs_malformed : FileSystem := {["futures.csv" := Ok malformed_table]}.

Definition regions_table : DataFrame := {["region" := [SStr "brazil"]]}.

Definition fs_regions : FileSystem := {["regions.csv" := Ok regions_table]}.

Definition regions_brazil : Regions := {|
  key := "region";
  return_region_or_iso := λ x,
    if String.eqb x "brazil" || String.eqb x "BRA" then Some "brazil" else None
|}.

Definition regions_bra_chl : Regions := {|
  key := "region";
  return_region_or_iso := λ x,
    if String.eqb x "bra" then Some "brazil"
    else if String.eqb x "chl" then Some "chile" else None
|}.

(** A float printer for inputs that hold no float. *)
Definition float_repr_none : pyfloat → string := λ _, "nan".

(** An engine that records nothing and always succeeds. *)
Definition engine_stub : InitArgs → result SISEPUEDE :=
  λ _, Ok {| sisepuede_id := "run"; call := λ _, Ok PyNone |}.

Definition env_stub : Environment := {|
  env_fs := ∅;
  env_model_attributes := attrs_sectors;
  env_regions_obj := regions_bra_chl;
  env_float_repr := float_repr_none;
  env_SISEPUEDE := engine_stub
|}.

Definition args_all_regions : gmap string PyVal :=
  <["regions" := PyStr "ALLREGIONS"]> {["keys_primary" := PyStr "1"]}.

Definition args_unknown_region : gmap string PyVal :=
  <["regions" := PyStr "xx"]> {["keys_primary" := PyStr "1"]}.

Definition args_one_region : gmap string PyVal :=
  <["regions" := PyStr "bra"]>
    (<["keys_primary" := PyStr "1"]> {["max_solve_attempts" := PyInt 2]}).

Definition request_one_region : RunRequest := {|
  dict_scenarios := {["primary_id" := [1]]};
  chunk_size := 2;
  check_results := true;
  include_electricity_in_energy := true;
  max_attempts := PyInt 2;
  reinitialize_output_table_on_verification_failure := true;
  save_inputs := PyNone
|}.

(** The outcomes of [main]: it fails before the engine, in the constructor
    or in the run, or it completes and returns 0. *)
Definition completed_or_failed (run : traced Z) : Prop :=
  match run with
  | ([], Err _) => True
  | ([Construct _], Err _) => True
  | ([Construct _; Run _], Err _) => True
  | ([Construct _; Run _; Log _ _], Ok 0) => True
  | _ => False
  end.

Definition init_one_region : InitArgs := {|
  init_data_mode := "calibrated";
  init_db_type := PyStr "sqlite";
  init_id_str := PyNone;
  init_n_trials := PyNone;
  init_random_seed := PyNone;
  init_regions := Some ["brazil"]
|}.

Definition args_malformed_primary : gmap string PyVal :=
  <["regions" := PyStr "bra"]> {["keys_primary" := PyStr "1,x"]}.

Definition args_unknown_model : gmap string PyVal :=
  <["models" := PyStr "zz"]> args_one_region.

Definition args_no_keys : gmap string PyVal := {["regions" := PyStr "bra"]}.

(** A path that exists and that [pd.read_csv] cannot read. *)
Definition fs_unreadable : FileSystem :=
  {["bad.csv" := Err (Exn (OtherError "ParserError") [Lit "Error tokenizing data"])]}.

Definition env_unreadable : Environment := {|
  env_fs := fs_unreadable;
  env_model_attributes := attrs_sectors;
  env_regions_obj := regions_bra_chl;
  env_float_repr := float_repr_none;
  env_SISEPUEDE := engine_stub
|}.

Definition env_no_registry : Environment := {|
  env_fs := ∅;
  env_model_attributes := attrs0;
  env_regions_obj := regions_bra_chl;
  env_float_repr := float_repr_none;
  env_SISEPUEDE := engine_stub
|}.

Definition args_regions_file : gmap string PyVal :=
  <["regions" := PyStr "bad.csv"]> {["keys_primary" := PyStr "1"]}.

Definition args_primary_and_bad_design : gmap string PyVal :=
  <["keys_primary" := PyStr "10,11"]> {["keys_design" := PyStr "x"]}.

Definition args_design_strategy : gmap string PyVal :=
  <["keys_design" := PyStr "1,2"]> {["keys_strategy" := PyStr "7"]}.

Definition args_bad_future : gmap string PyVal :=
  <["keys_design" := PyStr "1,2"]> {["keys_future" := PyStr "x"]}.


Definition items_ab : list (string * Z) := [("a", 1); ("b", 2)].

Definition items_aab : list (string * Z) := [("a", 1); ("b", 1); ("c", 2)].

(** A numeral of 4301 digits. *)
Definition long_numeral : string := String.concat EmptyString (replicate 4301 "1").

(** ** Builtins on sample inputs *)

Example split_commas : split "1,2,3" "," = Ok ["1"; "2"; "3"].
Proof. reflexivity. Qed.

Example split_empty_string : split EmptyString "," = Ok [EmptyString].
Proof. reflexivity. Qed.

Example split_leftmost : split "aaa" "aa" = Ok [EmptyString; "a"].
Proof. reflexivity. Qed.

Example split_keeps_empty_pieces :
  split "a,,b," "," = Ok ["a"; EmptyString; "b"; EmptyString].
Proof. reflexivity. Qed.

Example int_of_str_spaces_sign_underscore : int_of_str " -1_000 " = Ok (-1000).
Proof. reflexivity. Qed.

Example int_of_str_leading_zeros : int_of_str "007" = Ok 7.
Proof. reflexivity. Qed.

Example int_of_str_empty :
  int_of_str EmptyString
  = Err (Exn ValueError
           [Lit "invalid literal for int() with base 10: "; ReprCut 200 EmptyString]).
Proof. reflexivity. Qed.

(** The separators 28 to 31 are whitespace for [str.isspace] and none for
    the parser of an ASCII string. *)
Example int_of_str_file_separator :
  int_of_str (String "028" "1") = Err (invalid_literal (String "028" "1")).
Proof. reflexivity. Qed.

(** Fullwidth digits, U+FF11 and U+FF12. *)
Example int_of_str_fullwidth_digits :
  int_of_str (String "239" (String "188" (String "145"
               (String "239" (String "188" (String "146" EmptyString))))))
  = Ok 12.
Proof. reflexivity. Qed.

(** A no-break space, U+00A0, before the numeral. *)
Example int_of_str_no_break_space :
  int_of_str (String "194" (String "160" "-7")) = Ok (-7).
Proof. reflexivity. Qed.

(** A superscript two, U+00B2, is a digit and no decimal digit. *)
Example int_of_str_superscript :
  int_of_str (String "194" (String "178" EmptyString))
  = Err (invalid_literal (String "194" (String "178" EmptyString))).
Proof. reflexivity. Qed.

Example int_of_str_doubled_underscore :
  int_of_str "1__0" = Err (invalid_literal "1__0").
Proof. reflexivity. Qed.

Example int_of_str_limit : int_of_str long_numeral = Err (exceeds_max_str_digits 4301).
Proof. by vm_compute. Qed.

(** The number of digits is checked before what follows the numeral. *)
Example int_of_str_limit_before_trailing_text :
  int_of_str (String.append long_numeral " x") = Err (exceeds_max_str_digits 4301).
Proof. by vm_compute. Qed.

Example int_of_float_truncates : int_of_float (FFinite (-7) (-1)) = Ok (-3).
Proof. reflexivity. Qed.

Lemma upper_ascii_A c : upper_ascii c = "A"%char → c = "a"%char ∨ c = "A"%char.
Proof.
  destruct c as [[] [] [] [] [] [] [] []]; vm_compute; intros H;
    first [discriminate H | by left | by right].
Qed.

Lemma upper_ascii_L c : upper_ascii c = "L"%char → c = "l"%char ∨ c = "L"%char.
Proof.
  destruct c as [[] [] [] [] [] [] [] []]; vm_compute; intros H;
    first [discriminate H | by left | by right].
Qed.

(** [models.upper() == "ALL"] holds for the eight spellings of "all" and
    for nothing else. *)
Lemma upper_ALL s :
  upper s = "ALL"
  ↔ s ∈ ["all"; "alL"; "aLl"; "aLL"; "All"; "AlL"; "ALl"; "ALL"].
Proof.
  split.
  - destruct s as [|a [|l1 [|l2 [|]]]]; cbn; try done.
    intros [= Ha Hl1 Hl2].
    apply upper_ascii_A in Ha. apply upper_ascii_L in Hl1, Hl2.
    destruct Ha as [-> | ->], Hl1 as [-> | ->], Hl2 as [-> | ->];
      repeat first [apply list_elem_of_here | apply list_elem_of_further].
  - intros H. decompose_list_elem_of; subst; reflexivity.
Qed.

Lemma as_str_Some v s : as_str v = Some s ↔ v = PyStr s.
Proof.
  split; [|by intros ->].
  destruct v as [|[]|]; cbn; try done. by intros [= ->].
Qed.

(** ** List comprehensions that may raise *)

Section MapM.
Context {A B : Type} (f : A → result B).

Lemma mapM_result_Ok l k :
  Forall2 (λ x y, f x = Ok y) l k → mapM f l = Ok k.
Proof.
  induction 1 as [|x y l k Hxy _ IH]; [done|].
  cbn. rewrite Hxy. cbn. rewrite IH. done.
Qed.

(** The comprehension raises what its first failing element raises. *)
Lemma mapM_result_Exists_Err l :
  Exists (λ x, ∀ y, f x ≠ Ok y) l →
  ∃ x e, x ∈ l ∧ f x = Err e ∧ mapM f l = Err e.
Proof.
  induction l as [|a l IH]; intros HE; [by apply Exists_nil in HE|].
  cbn. destruct (f a) as [b|e] eqn:Ha.
  - apply Exists_cons in HE as [Hbad|HE]; [by destruct (Hbad b)|].
    destruct (IH HE) as (x & e & Hx & Hfx & Hm).
    exists x, e. split; [by right|]. split; [done|].
    cbn. by rewrite Hm.
  - exists a, e. split; [by left|]. done.
Qed.

Lemma mapM_result_first_Err pre x post e :
  Forall (λ y, ∃ z, f y = Ok z) pre →
  f x = Err e →
  mapM f (pre ++ x :: post)%list = Err e.
Proof.
  induction 1 as [|y pre [z Hz] _ IH]; intros Hx; cbn.
  - by rewrite Hx.
  - rewrite Hz. cbn. by rewrite IH.
Qed.

(** A list with an element that fails has a first one. *)
Lemma Exists_first_Err l :
  Exists (λ x, ∀ y, f x ≠ Ok y) l →
  ∃ pre x post e,
    l = (pre ++ x :: post)%list
    ∧ Forall (λ y, ∃ z, f y = Ok z) pre ∧ f x = Err e.
Proof.
  induction l as [|a l IH]; intros HE; [by apply Exists_nil in HE|].
  destruct (f a) as [b|e] eqn:Ha.
  - apply Exists_cons in HE as [Hbad|HE]; [by destruct (Hbad b)|].
    destruct (IH HE) as (pre & x & post & e & -> & Hpre & Hx).
    exists (a :: pre), x, post, e. split; [done|]. split; [|done].
    constructor; [by exists b|done].
  - by exists [], a, l, e.
Qed.
End MapM.

(** What [int] raises on a string: the token was no numeral, or its
    numeral had more digits than the limit. *)
Lemma py_int_str_Err t e :
  py_int (SStr t) = Err e →
  e = invalid_literal t
  ∨ ∃ n, (int_max_str_digits < n)%N ∧ e = exceeds_max_str_digits n.
Proof.
  cbn. unfold int_of_str.
  destruct (match lstrip _ with EmptyString => _ | _ => _ end) as [negative numeral].
  destruct (digit_run numeral) as [run rest].
  destruct (digits false 0 run) as [z|]; [|intros [= <-]; by left].
  destruct (int_max_str_digits <? count_digits run)%N eqn:Hn.
  - intros [= <-]. right. exists (count_digits run).
    by apply N.ltb_lt in Hn.
  - destruct (lstrip rest); [done|]. intros [= <-]. by left.
Qed.

Lemma mapM_py_str_total float_repr column :
  ∃ names, mapM (py_str float_repr) column = Ok names.
Proof.
  induction column as [|c column [names IH]]; [by exists []|].
  cbn. rewrite IH. destruct c; cbn; eauto.
Qed.

Lemma omap_id_fmap {A B} (f : A → option B) (l : list A) :
  omap id (f <$> l) = omap f l.
Proof. induction l as [|x l IH]; [done|]. cbn. by rewrite IH. Qed.

(** ** The reader [get_dimensional_values] *)

Lemma os_path_exists_None (fs : FileSystem) path :
  fs !! path = None → os_path_exists fs path = false.
Proof.
  intros H. unfold os_path_exists. rewrite H.
  apply bool_decide_eq_false_2. by intros [? ?].
Qed.

Lemma os_path_exists_Some (fs : FileSystem) path outcome :
  fs !! path = Some outcome → os_path_exists fs path = true.
Proof.
  intros H. unfold os_path_exists. rewrite H.
  apply bool_decide_eq_true_2. by eexists.
Qed.

Lemma get_dimensional_values_not_str {A} fs v key delim (rt : scalar → result A) :
  as_str v = None → get_dimensional_values fs v key delim rt = Ok None.
Proof. intros H. unfold get_dimensional_values. by rewrite H. Qed.

(** The branch of a string that names no existing path. *)
Lemma get_dimensional_values_inline {A} fs s key delim (rt : scalar → result A) :
  os_path_exists fs s = false →
  get_dimensional_values fs (PyStr s) key delim rt
  = (values ← try_except
                (tokens ← split s delim; mapM rt (SStr <$> tokens))
                (λ e, Exn RuntimeError
                        [Lit "Error trying to read keys in input string: "; StrOf e]);
     Ok (Some values)).
Proof. intros H. unfold get_dimensional_values. cbn [as_str PyStr]. by rewrite H. Qed.

Lemma get_dimensional_values_inline_Ok {A} fs s key delim
    (rt : scalar → result A) tokens vals :
  os_path_exists fs s = false →
  split s delim = Ok tokens →
  mapM rt (SStr <$> tokens) = Ok vals →
  get_dimensional_values fs (PyStr s) key delim rt = Ok (Some vals).
Proof.
  intros Hfs Hsplit Hmap. rewrite get_dimensional_values_inline by done.
  by rewrite Hsplit; cbn; rewrite Hmap.
Qed.

(** The branch of a path that [pd.read_csv] reads as a table. *)
Lemma get_dimensional_values_file {A} fs path df key delim (rt : scalar → result A) :
  fs !! path = Some (Ok df) →
  get_dimensional_values fs (PyStr path) key delim rt
  = match df !! key with
    | None =>
        Err (Exn RuntimeError
               [Lit "Error reading keys from file "; Lit path;
                Lit ": key '"; Lit key; Lit "' not found in the file."])
    | Some column => values ← mapM rt column; Ok (Some values)
    end.
Proof.
  intros H. unfold get_dimensional_values. cbn [as_str PyStr].
  rewrite (os_path_exists_Some _ _ _ H). unfold pd_read_csv. by rewrite H.
Qed.

(** ** The resolver [get_dimensional_dict] *)

Lemma key_map_design ma : key_map ma !!! "keys_design" = dim_design_id ma.
Proof. reflexivity. Qed.

Lemma key_map_future ma : key_map ma !!! "keys_future" = dim_future_id ma.
Proof. reflexivity. Qed.

Lemma key_map_primary ma : key_map ma !!! "keys_primary" = dim_primary_id ma.
Proof. reflexivity. Qed.

Lemma key_map_strategy ma : key_map ma !!! "keys_strategy" = dim_strategy_id ma.
Proof. reflexivity. Qed.

(** With a primary selector, only the primary read decides the result. *)
Lemma resolve_primary fs args ma :
  dict_get args "keys_primary" ≠ PyNone →
  resolve fs args ma
  = (vals ← get_dimensional_values fs (dict_get args "keys_primary")
              (dim_primary_id ma) "," py_int;
     Ok (match vals with
         | Some vals => Some {[dim_primary_id ma := vals]}
         | None => None
         end)).
Proof.
  intros Hp. unfold get_dimensional_dict.
  rewrite bool_decide_eq_true_2 by done.
  rewrite key_map_primary.
  destruct (get_dimensional_values _ _ _ _ _) as [[vals|]|e]; simpl; try done.
  rewrite bool_decide_eq_false_2; [done|].
  rewrite insert_empty, map_size_singleton. lia.
Qed.

(** Without one, design, future and strategy are read in this order. *)
Lemma resolve_no_primary fs args ma :
  dict_get args "keys_primary" = PyNone →
  resolve fs args ma
  = (vd ← get_dimensional_values fs (dict_get args "keys_design")
            (dim_design_id ma) "," py_int;
     vf ← get_dimensional_values fs (dict_get args "keys_future")
            (dim_future_id ma) "," py_int;
     vs ← get_dimensional_values fs (dict_get args "keys_strategy")
            (dim_strategy_id ma) "," py_int;
     let d := update_if_not_none
                (update_if_not_none
                   (update_if_not_none ∅ (dim_design_id ma) vd)
                   (dim_future_id ma) vf)
                (dim_strategy_id ma) vs in
     Ok (if bool_decide (size d = 0%nat) then None else Some d)).
Proof.
  intros Hp. unfold get_dimensional_dict.
  rewrite bool_decide_eq_false_2 by (rewrite Hp; naive_solver).
  cbn [resolve_each].
  rewrite key_map_design, key_map_future, key_map_strategy.
  destruct (get_dimensional_values fs (dict_get args "keys_design") _ _ _)
    as [vd|e]; [|done].
  cbn [mbind result_bind].
  destruct (get_dimensional_values fs (dict_get args "keys_future") _ _ _)
    as [vf|e]; [|done].
  cbn [mbind result_bind].
  destruct (get_dimensional_values fs (dict_get args "keys_strategy") _ _ _)
    as [vs|e]; done.
Qed.

Lemma resolve_never_empty fs args ma d :
  resolve fs args ma = Ok (Some d) → d ≠ ∅.
Proof.
  unfold get_dimensional_dict. intros H.
  match type of H with (?m ≫= _) = _ => destruct m as [d'|e] end; [|done].
  cbn in H. case_bool_decide as Hsz; [done|].
  injection H as <-. intros ->. by rewrite map_size_empty in Hsz.
Qed.

(** ** The claims about the resolver *)

(** C2: when the primary selector is present (not [None]), the resolver's
    result is decided by the primary read alone: if that read yields the id
    list [vals], the resolver returns the one-entry map from the primary key
    to [vals]; and every map it returns is that one-entry map, so no design,
    future or strategy key appears in it, whatever those selectors hold. *)
Theorem primary_takes_precedence fs args ma :
  dict_get args "keys_primary" ≠ PyNone →
  (∀ vals,
      get_dimensional_values fs (dict_get args "keys_primary")
        (dim_primary_id ma) "," py_int = Ok (Some vals) →
      resolve fs args ma = Ok (Some {[dim_primary_id ma := vals]}))
  ∧ (∀ d,
      resolve fs args ma = Ok (Some d) →
      ∃ vals,
        get_dimensional_values fs (dict_get args "keys_primary")
          (dim_primary_id ma) "," py_int = Ok (Some vals)
        ∧ d = {[dim_primary_id ma := vals]}).
Proof.
  intros Hp. rewrite (resolve_primary _ _ _ Hp). split.
  - intros vals ->. done.
  - intros d.
    destruct (get_dimensional_values _ _ _ _ _) as [[vals|]|e]; cbn; try done.
    intros [= <-]. by exists vals.
Qed.

Lemma primary_takes_precedence_witness :
  resolve ∅ args_primary_design_future attrs0
  = Ok (Some {["primary_id" := [10; 11]]}).
Proof.
  apply (proj1 (primary_takes_precedence ∅ args_primary_design_future attrs0
                  ltac:(vm_compute; discriminate)) [10; 11]).
  vm_compute. reflexivity.
Defined.

(** C3, as the claim states it, fails: with design ["1,2"], future the empty
    string and strategy [None], the resolver does not return the map with
    design [[1; 2]] and future [[]]; the empty string splits into one empty
    token, whose coercion to [int] raises. *)
Lemma empty_future_string_not_resolved :
  resolve ∅ args_design_future_empty attrs0
  ≠ Ok (Some (<["future_id" := []]> {["design_id" := [1; 2]]})).
Proof. vm_compute. discriminate. Qed.

(** C3, amended: a dimension whose read yields a zero-length id list still
    enters the output map with an empty list under its key.  For primary,
    the result is the one-entry map with the empty list.  For design, future
    and strategy (distinct keys, primary absent, no read failing), the
    result is a map holding the empty list under that dimension's key.
    With design ["1,2"], future the path of a file whose future column has
    no rows, and strategy [None], the result is design [[1; 2]] and
    future [[]]. *)
Theorem present_but_empty_dimension fs args ma :
  (get_dimensional_values fs (dict_get args "keys_primary")
     (dim_primary_id ma) "," py_int = Ok (Some []) →
   resolve fs args ma = Ok (Some {[dim_primary_id ma := []]}))
  ∧ (∀ vd vf vs key,
      dict_get args "keys_primary" = PyNone →
      get_dimensional_values fs (dict_get args "keys_design")
        (dim_design_id ma) "," py_int = Ok vd →
      get_dimensional_values fs (dict_get args "keys_future")
        (dim_future_id ma) "," py_int = Ok vf →
      get_dimensional_values fs (dict_get args "keys_strategy")
        (dim_strategy_id ma) "," py_int = Ok vs →
      NoDup [dim_design_id ma; dim_future_id ma; dim_strategy_id ma] →
      (key, Some []) ∈ [(dim_design_id ma, vd); (dim_future_id ma, vf);
                        (dim_strategy_id ma, vs)] →
      ∃ d, resolve fs args ma = Ok (Some d) ∧ d !! key = Some [])
  ∧ (∀ path df,
      dict_get args "keys_primary" = PyNone →
      dict_get args "keys_design" = PyStr "1,2" →
      dict_get args "keys_future" = PyStr path →
      dict_get args "keys_strategy" = PyNone →
      fs !! "1,2" = None →
      fs !! path = Some (Ok df) →
      df !! dim_future_id ma = Some [] →
      resolve fs args ma
      = Ok (Some (<[dim_future_id ma := []]> {[dim_design_id ma := [1; 2]]}))).
Proof.
  split; [|split].
  - intros H. rewrite resolve_primary.
    + by rewrite H.
    + intros Hn. rewrite Hn in H. done.
  - intros vd vf vs key Hp Hd Hf Hs Hnd Hin.
    rewrite (resolve_no_primary _ _ _ Hp), Hd, Hf, Hs. cbn.
    apply NoDup_cons in Hnd as [Hdf Hnd]. apply NoDup_cons in Hnd as [Hfs _].
    assert (dim_design_id ma ≠ dim_future_id ma)
      by (intros Heq; apply Hdf; rewrite Heq; left).
    assert (dim_design_id ma ≠ dim_strategy_id ma)
      by (intros Heq; apply Hdf; rewrite Heq; right; left).
    assert (dim_future_id ma ≠ dim_strategy_id ma)
      by (intros Heq; apply Hfs; rewrite Heq; left).
    set (d := update_if_not_none _ _ vs).
    assert (d !! key = Some []) as Hk.
    { subst d. rewrite !elem_of_cons, elem_of_nil in Hin.
      destruct Hin as [Hin|[Hin|[Hin|[]]]]; injection Hin as -> <-;
        [destruct vf, vs | destruct vd, vs | destruct vd, vf];
        cbn; by simplify_map_eq. }
    exists d. split; [|done].
    rewrite bool_decide_eq_false_2; [done|].
    intros Hsz. apply map_size_empty_iff in Hsz.
    by rewrite Hsz, lookup_empty in Hk.
  - intros path df Hp Hd Hf Hs Hn12 Hpath Hcol.
    rewrite (resolve_no_primary _ _ _ Hp), Hd, Hf, Hs.
    rewrite (get_dimensional_values_inline_Ok fs "1,2" _ "," py_int ["1"; "2"] [1; 2])
      by (done || by apply os_path_exists_None).
    rewrite (get_dimensional_values_file _ _ _ _ _ _ Hpath), Hcol.
    cbn.
    rewrite bool_decide_eq_false_2; [done|].
    intros Hsz. apply map_size_empty_iff in Hsz.
    by apply insert_non_empty in Hsz.
Qed.

Lemma present_but_empty_dimension_witness :
  resolve fs_empty_columns args_primary_file attrs0
    = Ok (Some {["primary_id" := []]})
  ∧ (∃ d, resolve fs_empty_columns args_design_future_file attrs0 = Ok (Some d)
          ∧ d !! "future_id" = Some [])
  ∧ resolve fs_empty_columns args_design_future_file attrs0
    = Ok (Some (<["future_id" := []]> {["design_id" := [1; 2]]})).
Proof.
  split; [|split].
  - apply (proj1 (present_but_empty_dimension
                    fs_empty_columns args_primary_file attrs0)).
    vm_compute. reflexivity.
  - apply (proj1 (proj2 (present_but_empty_dimension
                           fs_empty_columns args_design_future_file attrs0))
             (Some [1; 2]) (Some []) None "future_id");
      try (vm_compute; reflexivity).
    + by apply (bool_decide_unpack _).
    + right; left.
  - apply (proj2 (proj2 (present_but_empty_dimension
                           fs_empty_columns args_design_future_file attrs0))
             "futures.csv" {["future_id" := []]});
      vm_compute; reflexivity.
Defined.

(** C4: the resolver never returns a map with zero entries, and when none
    of the four dimension inputs is usable (none is a string) it returns
    [None]; in particular the input with all four selectors [None] gives
    [None]. *)
Theorem nothing_usable_returns_None fs ma :
  (∀ args d, resolve fs args ma = Ok (Some d) → d ≠ ∅)
  ∧ (∀ args,
      (∀ k, k ∈ cl_keys → as_str (dict_get args k) = None) →
      resolve fs args ma = Ok None)
  ∧ resolve fs args_all_none ma = Ok None.
Proof.
  assert (∀ args,
      (∀ k, k ∈ cl_keys → as_str (dict_get args k) = None) →
      resolve fs args ma = Ok None) as Hnone.
  { intros args Hk.
    assert (as_str (dict_get args "keys_primary") = None) as Hp
      by (apply Hk; unfold cl_keys; repeat constructor).
    assert (as_str (dict_get args "keys_design") = None) as Hd
      by (apply Hk; unfold cl_keys; repeat constructor).
    assert (as_str (dict_get args "keys_future") = None) as Hf
      by (apply Hk; unfold cl_keys; repeat constructor).
    assert (as_str (dict_get args "keys_strategy") = None) as Hs
      by (apply Hk; unfold cl_keys; repeat constructor).
    destruct (decide (dict_get args "keys_primary" = PyNone)) as [Hnull|Hnull].
    - rewrite resolve_no_primary by done.
      by rewrite !get_dimensional_values_not_str by done.
    - rewrite resolve_primary by done.
      by rewrite get_dimensional_values_not_str by done. }
  split; [|split].
  - intros args d. apply resolve_never_empty.
  - exact Hnone.
  - apply Hnone. intros k Hk. unfold cl_keys in Hk.
    decompose_list_elem_of; subst; reflexivity.
Qed.

Lemma nothing_usable_returns_None_witness :
  resolve ∅ args_all_none attrs0 = Ok None
  ∧ {["primary_id" := [10; 11]]} ≠ (∅ : gmap string (list Z)).
Proof.
  split.
  - apply (proj1 (proj2 (nothing_usable_returns_None ∅ attrs0)) args_all_none).
    intros k Hk. unfold cl_keys in Hk.
    decompose_list_elem_of; subst; reflexivity.
  - apply (proj1 (nothing_usable_returns_None ∅ attrs0) args_primary_design_future).
    vm_compute. reflexivity.
Defined.

(** ** The claims about the reader *)

(** C5, at the failing input: when the key column of an existing file holds
    an entry that [int] rejects, the read does not skip it: both readers
    fail, and on the column ["1"; "abc"; "3"] they raise the [ValueError] of
    [int("abc")], which nothing catches on this branch. *)
Theorem file_read_fails_on_malformed_cell fs path df key delim column :
  fs !! path = Some (Ok df) →
  df !! key = Some column →
  (Exists (λ c, ∀ z, py_int c ≠ Ok z) column →
   (∃ e, sisepuede_cl.get_dimensional_values fs (PyStr path) key delim py_int
         = Err e)
   ∧ (∃ e, support_functions.get_dimensional_values fs (PyStr path) key delim
             support_functions.type_int = Err e))
  ∧ (column = [SStr "1"; SStr "abc"; SStr "3"] →
     sisepuede_cl.get_dimensional_values fs (PyStr path) key delim py_int
     = Err (Exn ValueError
              [Lit "invalid literal for int() with base 10: "; ReprCut 200 "abc"])
     ∧ support_functions.get_dimensional_values fs (PyStr path) key delim
         support_functions.type_int
       = Err (Exn ValueError
                [Lit "invalid literal for int() with base 10: "; ReprCut 200 "abc"])).
Proof.
  intros Hpath Hcol.
  assert (support_functions.get_dimensional_values fs (PyStr path) key delim
            support_functions.type_int
          = (values ← mapM (λ x, SInt <$> py_int x) column; Ok (Some values)))
    as Hsf.
  { unfold support_functions.get_dimensional_values. cbn.
    rewrite (os_path_exists_Some _ _ _ Hpath). unfold pd_read_csv.
    rewrite Hpath. cbn. by rewrite Hcol. }
  rewrite Hsf, (get_dimensional_values_file _ _ _ _ _ _ Hpath), Hcol.
  split.
  - intros HE. split.
    + destruct (mapM_result_Exists_Err py_int column HE) as (x & e & _ & _ & Hm).
      exists e. by rewrite Hm.
    + destruct (mapM_result_Exists_Err (λ x, SInt <$> py_int x) column)
        as (x & e & _ & _ & Hm).
      { eapply Exists_impl; [exact HE|]. intros c Hc y.
        destruct (py_int c) as [z|] eqn:Hz; [by destruct (Hc z)|done]. }
      exists e. by rewrite Hm.
  - intros ->. done.
Qed.

Lemma file_read_fails_on_malformed_cell_witness :
  sisepuede_cl.get_dimensional_values fs_malformed (PyStr "futures.csv")
    "future_id" "," py_int
  = Err (Exn ValueError
           [Lit "invalid literal for int() with base 10: "; ReprCut 200 "abc"])
  ∧ support_functions.get_dimensional_values fs_malformed (PyStr "futures.csv")
      "future_id" "," support_functions.type_int
    = Err (Exn ValueError
             [Lit "invalid literal for int() with base 10: "; ReprCut 200 "abc"]).
Proof.
  by apply (proj2 (file_read_fails_on_malformed_cell fs_malformed "futures.csv"
                     malformed_table "future_id" ","
                     [SStr "1"; SStr "abc"; SStr "3"] eq_refl eq_refl)).
Defined.

(** C6: when the raw input names an existing path that reads as a table,
    the call fails whenever the table has no column named after the
    dimension key, with an error whose message names the file path and the
    missing column; and for a table whose column [future_id] holds the rows
    0, 5, 12, reading with key [future_id] returns [[0; 5; 12]]. *)
Theorem file_column_read fs path df delim :
  fs !! path = Some (Ok df) →
  (∀ (A : Type) (return_type : scalar → result A) key,
      df !! key = None →
      get_dimensional_values fs (PyStr path) key delim return_type
      = Err (Exn RuntimeError
               [Lit "Error reading keys from file "; Lit path;
                Lit ": key '"; Lit key; Lit "' not found in the file."]))
  ∧ (df !! "future_id" = Some [SInt 0; SInt 5; SInt 12] →
     get_dimensional_values fs (PyStr path) "future_id" delim py_int
     = Ok (Some [0; 5; 12])).
Proof.
  intros Hpath. split.
  - intros A rt key Hkey.
    by rewrite (get_dimensional_values_file _ _ _ _ _ _ Hpath), Hkey.
  - intros Hcol.
    by rewrite (get_dimensional_values_file _ _ _ _ _ _ Hpath), Hcol.
Qed.

Lemma file_column_read_witness :
  get_dimensional_values fs_futures (PyStr "futures.csv") "design_id" "," py_int
    = Err (Exn RuntimeError
             [Lit "Error reading keys from file "; Lit "futures.csv";
              Lit ": key '"; Lit "design_id"; Lit "' not found in the file."])
  ∧ get_dimensional_values fs_futures (PyStr "futures.csv") "future_id" "," py_int
    = Ok (Some [0; 5; 12]).
Proof.
  split.
  - apply (proj1 (file_column_read fs_futures "futures.csv" futures_table ","
                    eq_refl) Z py_int "design_id").
    reflexivity.
  - apply (proj2 (file_column_read fs_futures "futures.csv" futures_table ","
                    eq_refl)).
    reflexivity.
Defined.

(** C7, as the claim states it, fails: the error of a failed coercion
    does not always include the offending token.  In ["1,111...1"] the
    second token is a numeral of 4301 digits, which [int] refuses; the call
    fails with the complaint of [int] about the number of digits, whose
    whole text is shorter than the token. *)
Lemma long_numeral_error_omits_token :
  split (String.append "1," long_numeral) "," = Ok ["1"; long_numeral]
  ∧ py_int (SStr "1") = Ok 1
  ∧ (∀ z, py_int (SStr long_numeral) ≠ Ok z)
  ∧ get_dimensional_values ∅ (PyStr (String.append "1," long_numeral))
      "design_id" "," py_int
    = Err (Exn RuntimeError
             [Lit "Error trying to read keys in input string: ";
              StrOf (Exn ValueError
                       [Lit "Exceeds the limit ("; Lit "4300";
                        Lit " digits) for integer string conversion: value has ";
                        Lit "4301";
                        Lit " digits; use sys.set_int_max_str_digits() to increase the limit"])])
  ∧ (String.length
       (String.concat EmptyString
          ["Error trying to read keys in input string: ";
           "Exceeds the limit ("; "4300";
           " digits) for integer string conversion: value has "; "4301";
           " digits; use sys.set_int_max_str_digits() to increase the limit"])
     < String.length long_numeral)%nat.
Proof.
  split; [by vm_compute|]. split; [by vm_compute|].
  split; [intros z; vm_compute; discriminate|]. split.
  - rewrite get_dimensional_values_inline by (by apply os_path_exists_None).
    by vm_compute.
  - vm_compute. lia.
Qed.

(** C7, amended: for an inline string (one that names no existing path),
    split on the delimiter into [tokens]: if every token coerces to [int],
    the call returns the coerced values in the order of the tokens; if some
    token does not, there is a first such token, and the whole call fails,
    returning nothing, with an error that carries what [int] raised on that
    token: the complaint about an invalid literal with the first 200
    characters of the token's [repr], or, for a numeral of more digits than
    the limit, the complaint about its number of digits; and ["1,2,3"]
    returns [[1; 2; 3]]. *)
Theorem inline_string_read fs s key delim tokens :
  os_path_exists fs s = false →
  split s delim = Ok tokens →
  (∀ zs,
      Forall2 (λ t z, py_int (SStr t) = Ok z) tokens zs →
      get_dimensional_values fs (PyStr s) key delim py_int = Ok (Some zs))
  ∧ (Exists (λ t, ∀ z, py_int (SStr t) ≠ Ok z) tokens →
     ∃ pre t post e,
       tokens = (pre ++ t :: post)%list
       ∧ Forall (λ u, ∃ z, py_int (SStr u) = Ok z) pre
       ∧ py_int (SStr t) = Err e
       ∧ get_dimensional_values fs (PyStr s) key delim py_int
         = Err (Exn RuntimeError
                  [Lit "Error trying to read keys in input string: "; StrOf e]))
  ∧ (∀ pre t post e,
       tokens = (pre ++ t :: post)%list →
       Forall (λ u, ∃ z, py_int (SStr u) = Ok z) pre →
       py_int (SStr t) = Err e →
       get_dimensional_values fs (PyStr s) key delim py_int
       = Err (Exn RuntimeError
                [Lit "Error trying to read keys in input string: "; StrOf e])
       ∧ (e = Exn ValueError
                [Lit "invalid literal for int() with base 10: "; ReprCut 200 t]
          ∨ ∃ n, (4300 < n)%N
              ∧ e = Exn ValueError
                      [Lit "Exceeds the limit ("; Lit "4300";
                       Lit " digits) for integer string conversion: value has ";
                       Lit (pretty n);
                       Lit " digits; use sys.set_int_max_str_digits() to increase the limit"]))
  ∧ (s = "1,2,3" → delim = "," →
     get_dimensional_values fs (PyStr s) key delim py_int = Ok (Some [1; 2; 3])).
Proof.
  intros Hfs Hsplit.
  assert (∀ pre t post e,
    tokens = (pre ++ t :: post)%list →
    Forall (λ u, ∃ z, py_int (SStr u) = Ok z) pre →
    py_int (SStr t) = Err e →
    get_dimensional_values fs (PyStr s) key delim py_int
    = Err (Exn RuntimeError
             [Lit "Error trying to read keys in input string: "; StrOf e]))
    as Hfail.
  { intros pre t post e -> Hpre Ht.
    rewrite get_dimensional_values_inline by done.
    rewrite Hsplit. cbn. rewrite fmap_app, fmap_cons.
    rewrite (mapM_result_first_Err py_int _ _ _ e); [done| |done].
    by apply Forall_fmap. }
  split; [|split; [|split]].
  - intros zs Hzs.
    apply (get_dimensional_values_inline_Ok _ _ _ _ _ tokens); [done..|].
    apply mapM_result_Ok. by apply Forall2_fmap_l.
  - intros HE.
    destruct (Exists_first_Err (λ t, py_int (SStr t)) tokens HE)
      as (pre & t & post & e & Htok & Hpre & Ht).
    exists pre, t, post, e. eauto.
  - intros pre t post e Htok Hpre Ht. split; [by eapply Hfail|].
    by apply py_int_str_Err.
  - intros -> ->.
    by apply (get_dimensional_values_inline_Ok _ _ _ _ _ ["1"; "2"; "3"]).
Qed.

Lemma inline_string_read_witness :
  get_dimensional_values ∅ (PyStr "7,8") "design_id" "," py_int = Ok (Some [7; 8])
  ∧ (∃ pre t post e,
       ["1"; "x"; "3"] = (pre ++ t :: post)%list
       ∧ Forall (λ u, ∃ z, py_int (SStr u) = Ok z) pre
       ∧ py_int (SStr t) = Err e
       ∧ get_dimensional_values ∅ (PyStr "1,x,3") "design_id" "," py_int
         = Err (Exn RuntimeError
                  [Lit "Error trying to read keys in input string: "; StrOf e]))
  ∧ get_dimensional_values ∅ (PyStr "1,x,3") "design_id" "," py_int
    = Err (Exn RuntimeError
             [Lit "Error trying to read keys in input string: ";
              StrOf (Exn ValueError
                       [Lit "invalid literal for int() with base 10: ";
                        ReprCut 200 "x"])])
  ∧ get_dimensional_values ∅ (PyStr "1,2,3") "design_id" "," py_int
    = Ok (Some [1; 2; 3]).
Proof.
  split; [|split; [|split]].
  - apply (proj1 (inline_string_read ∅ "7,8" "design_id" "," ["7"; "8"]
                    ltac:(by apply os_path_exists_None) eq_refl)).
    repeat constructor.
  - apply (proj1 (proj2 (inline_string_read ∅ "1,x,3" "design_id" ","
                           ["1"; "x"; "3"]
                           ltac:(by apply os_path_exists_None) eq_refl))).
    apply Exists_cons_tl, Exists_cons_hd. intros z. vm_compute. discriminate.
  - apply (proj1 (proj2 (proj2 (inline_string_read ∅ "1,x,3" "design_id" ","
                                  ["1"; "x"; "3"]
                                  ltac:(by apply os_path_exists_None) eq_refl)))
             ["1"] "x" ["3"]); [reflexivity| |reflexivity].
    repeat constructor. by exists 1.
  - by apply (proj2 (proj2 (proj2 (inline_string_read ∅ "1,2,3" "design_id" ","
                                     ["1"; "2"; "3"]
                                     ltac:(by apply os_path_exists_None) eq_refl)))).
Defined.

(** ** The claims about the selectors *)

(** C8: with the sector table in the registry and a non-empty delimiter,
    [get_models] returns [None] exactly when its input is not a string or
    is ["all"] in any mix of upper and lower case; otherwise it splits the
    input on the delimiter and returns, as a list that may be empty and is
    never [None], the tokens found among the table's keys or its sector
    names, unknown tokens dropped; and ["AFOLU,bogus"] gives [["AFOLU"]]
    when [AFOLU] is registered and [bogus] is not. *)
Theorem get_models_selects_registered ma attr sector delim :
  dict_attributes ma !! "abbreviation_sector" = Some attr →
  table attr !! "sector" = Some sector →
  delim ≠ EmptyString →
  (∀ models,
      get_models models ma delim = Ok None
      ↔ as_str models = None
        ∨ ∃ s, models = PyStr s
             ∧ s ∈ ["all"; "alL"; "aLl"; "aLL"; "All"; "AlL"; "ALl"; "ALL"])
  ∧ (∀ s,
      s ∉ ["all"; "alL"; "aLl"; "aLL"; "All"; "AlL"; "ALl"; "ALL"] →
      ∃ tokens,
        split s delim = Ok tokens
        ∧ get_models (PyStr s) ma delim
          = Ok (Some (filter (λ x, SStr x ∈ (key_values attr ++ sector)%list)
                        tokens)))
  ∧ (delim = "," →
     SStr "AFOLU" ∈ (key_values attr ++ sector)%list →
     SStr "bogus" ∉ (key_values attr ++ sector)%list →
     get_models (PyStr "AFOLU,bogus") ma delim = Ok (Some ["AFOLU"])).
Proof.
  intros Hattr Hsector Hdelim.
  assert (∀ s, upper s ≠ "ALL" →
    get_models (PyStr s) ma delim
    = Ok (Some (filter (λ x, SStr x ∈ (key_values attr ++ sector)%list)
                  (split_go delim s O EmptyString)))
    ∧ split s delim = Ok (split_go delim s O EmptyString)) as Hsel.
  { intros s Hs. unfold get_models. cbn [as_str PyStr].
    apply String.eqb_neq in Hs. rewrite Hs, Hattr. cbn. rewrite Hsector. cbn.
    unfold split. destruct delim; done. }
  split; [|split].
  - intros models. split.
    + intros Hm. destruct (as_str models) as [s|] eqn:Hstr; [|by left].
      right. exists s. apply as_str_Some in Hstr as ->. split; [done|].
      apply upper_ALL.
      destruct (decide (upper s = "ALL")) as [|Hs]; [done|].
      destruct (Hsel s Hs) as [Heq _]. by rewrite Heq in Hm.
    + intros [Hstr|(s & -> & Hs)]; unfold get_models.
      * by rewrite Hstr.
      * apply upper_ALL in Hs. cbn [as_str PyStr]. by rewrite Hs.
  - intros s Hs. rewrite <- upper_ALL in Hs.
    destruct (Hsel s Hs) as [Heq Hsp]. eauto.
  - intros -> Hin Hout. rewrite (proj1 (Hsel "AFOLU,bogus" ltac:(done))).
    cbn. rewrite decide_True by done. by rewrite decide_False by done.
Qed.

Lemma get_models_selects_registered_witness :
  get_models (PyStr "all") attrs_sectors "," = Ok None
  ∧ get_models (PyStr "All") attrs_sectors "," = Ok None
  ∧ get_models PyNone attrs_sectors "," = Ok None
  ∧ get_models (PyStr "ally") attrs_sectors "," ≠ Ok None
  ∧ (∃ tokens,
        split "x,en" "," = Ok tokens
        ∧ get_models (PyStr "x,en") attrs_sectors ","
          = Ok (Some (filter
                        (λ x, SStr x ∈ (key_values sector_table
                                          ++ [SStr "AFOLU"; SStr "Circular Economy";
                                              SStr "Energy"; SStr "IPPU"])%list)
                        tokens)))
  ∧ get_models (PyStr "AFOLU,bogus") attrs_sectors "," = Ok (Some ["AFOLU"]).
Proof.
  pose proof (get_models_selects_registered attrs_sectors sector_table
                [SStr "AFOLU"; SStr "Circular Economy"; SStr "Energy"; SStr "IPPU"]
                "," eq_refl eq_refl ltac:(done)) as (H1 & H2 & H3).
  split; [|split; [|split; [|split; [|split]]]].
  - apply H1. right. exists "all". split; [done|]. apply list_elem_of_here.
  - apply H1. right. exists "All". split; [done|].
    do 4 apply list_elem_of_further. apply list_elem_of_here.
  - apply H1. by left.
  - intros Hnone. apply H1 in Hnone as [Hstr|(s & [= <-] & Hs)]; [done|].
    decompose_list_elem_of; discriminate.
  - apply H2. intros Hs. decompose_list_elem_of; discriminate.
  - apply H3; [done| |].
    + by apply (bool_decide_unpack _).
    + by apply (bool_decide_unpack _).
Defined.

(** C9, as the claim states it, fails: a string other than the sentinel is
    not always resolved token by token.  ["regions.csv"] names an existing
    file here, and [get_regions] returns the region read from the file's
    column, not the (empty) list of regions that the single token
    ["regions.csv"] resolves to. *)
Lemma get_regions_reads_existing_file :
  get_regions float_repr_none fs_regions (PyStr "regions.csv") regions_brazil ","
    = Ok (Some ["brazil"])
  ∧ ¬ ∃ tokens,
        split "regions.csv" "," = Ok tokens
        ∧ get_regions float_repr_none fs_regions (PyStr "regions.csv")
            regions_brazil ","
          = Ok (Some (omap (return_region_or_iso regions_brazil) tokens)).
Proof.
  split; [reflexivity|].
  intros (tokens & Hsplit & Hget).
  injection Hsplit as <-. vm_compute in Hget. discriminate Hget.
Qed.

(** C9, amended: with a non-empty delimiter, [get_regions] returns [None]
    exactly when its input is the string ["ALLREGIONS"]; it returns the
    empty list when its input is not a string; for another string that
    names no existing path it resolves each delimited token through the
    registry's lookup and drops the tokens that do not resolve; for a
    string that names an existing file read as a table with the registry's
    key column, it resolves the entries of that column instead; and
    ["bra,xx,chl"], with [xx] unresolved, gives the two resolved regions. *)
Theorem get_regions_resolves_tokens float_repr fs regions_obj delim :
  delim ≠ EmptyString →
  (∀ region_args,
      get_regions float_repr fs region_args regions_obj delim = Ok None
      ↔ region_args = PyStr "ALLREGIONS")
  ∧ (∀ region_args,
      as_str region_args = None →
      get_regions float_repr fs region_args regions_obj delim = Ok (Some []))
  ∧ (∀ s,
      s ≠ "ALLREGIONS" →
      os_path_exists fs s = false →
      ∃ tokens,
        split s delim = Ok tokens
        ∧ get_regions float_repr fs (PyStr s) regions_obj delim
          = Ok (Some (omap (return_region_or_iso regions_obj) tokens)))
  ∧ (∀ path df column,
      path ≠ "ALLREGIONS" →
      fs !! path = Some (Ok df) →
      df !! key regions_obj = Some column →
      ∃ names,
        mapM (py_str float_repr) column = Ok names
        ∧ get_regions float_repr fs (PyStr path) regions_obj delim
          = Ok (Some (omap (return_region_or_iso regions_obj) names)))
  ∧ (∀ bra chl,
      delim = "," →
      os_path_exists fs "bra,xx,chl" = false →
      return_region_or_iso regions_obj "bra" = Some bra →
      return_region_or_iso regions_obj "xx" = None →
      return_region_or_iso regions_obj "chl" = Some chl →
      get_regions float_repr fs (PyStr "bra,xx,chl") regions_obj delim
      = Ok (Some [bra; chl])).
Proof.
  intros Hdelim.
  assert (∀ s, s ≠ "ALLREGIONS" → os_path_exists fs s = false →
    split s delim = Ok (split_go delim s O EmptyString)
    ∧ get_regions float_repr fs (PyStr s) regions_obj delim
      = Ok (Some (omap (return_region_or_iso regions_obj)
                    (split_go delim s O EmptyString)))) as Hinline.
  { intros s Hs Hfs.
    assert (split s delim = Ok (split_go delim s O EmptyString)) as Hsplit
      by (unfold split; by destruct delim).
    split; [done|].
    unfold get_regions. cbn [as_str PyStr].
    apply String.eqb_neq in Hs. rewrite Hs.
    assert (mapM (py_str float_repr) (SStr <$> split_go delim s O EmptyString)
            = Ok (split_go delim s O EmptyString)) as Hmap.
    { apply mapM_result_Ok, Forall2_fmap_l, Forall2_same_length_lookup.
      split; [done|]. by intros i x y Hx [= <-]%(eq_trans (eq_sym Hx)). }
    rewrite (get_dimensional_values_inline_Ok _ _ _ _ _ _ _ Hfs Hsplit Hmap).
    cbn. by rewrite omap_id_fmap. }
  split; [|split; [|split; [|split]]].
  - intros region_args. split; [|by intros ->].
    unfold get_regions.
    destruct (as_str region_args) as [s|] eqn:Hstr; [|done].
    apply as_str_Some in Hstr as ->.
    destruct (String.eqb s "ALLREGIONS") eqn:Hs.
    { apply String.eqb_eq in Hs as ->. done. }
    destruct (get_dimensional_values _ _ _ _ _) as [[regions|]|e]; done.
  - intros region_args Hstr. unfold get_regions. by rewrite Hstr.
  - intros s Hs Hfs. destruct (Hinline s Hs Hfs). eauto.
  - intros path df column Hpath Hfs Hcol.
    destruct (mapM_py_str_total float_repr column) as [names Hnames].
    exists names. split; [done|].
    unfold get_regions. cbn [as_str PyStr].
    apply String.eqb_neq in Hpath. rewrite Hpath.
    rewrite (get_dimensional_values_file _ _ _ _ _ _ Hfs), Hcol, Hnames.
    cbn. by rewrite omap_id_fmap.
  - intros bra chl -> Hfs Hbra Hxx Hchl.
    rewrite (proj2 (Hinline "bra,xx,chl" ltac:(done) Hfs)).
    cbn. by rewrite Hbra, Hxx, Hchl.
Qed.

Lemma get_regions_resolves_tokens_witness :
  (get_regions float_repr_none fs_regions (PyStr "ALLREGIONS") regions_bra_chl ","
     = Ok None ↔ PyStr "ALLREGIONS" = PyStr "ALLREGIONS")
  ∧ get_regions float_repr_none fs_regions PyNone regions_bra_chl ","
    = Ok (Some [])
  ∧ (∃ tokens,
        split "chl,yy" "," = Ok tokens
        ∧ get_regions float_repr_none fs_regions (PyStr "chl,yy") regions_bra_chl ","
          = Ok (Some (omap (return_region_or_iso regions_bra_chl) tokens)))
  ∧ (∃ names,
        mapM (py_str float_repr_none) [SStr "brazil"] = Ok names
        ∧ get_regions float_repr_none fs_regions (PyStr "regions.csv")
            regions_bra_chl ","
          = Ok (Some (omap (return_region_or_iso regions_bra_chl) names)))
  ∧ get_regions float_repr_none fs_regions (PyStr "bra,xx,chl") regions_bra_chl ","
    = Ok (Some ["brazil"; "chile"]).
Proof.
  pose proof (get_regions_resolves_tokens float_repr_none fs_regions
                regions_bra_chl "," ltac:(done)) as (H1 & H2 & H3 & H4 & H5).
  split; [|split; [|split; [|split]]].
  - apply H1.
  - by apply H2.
  - apply H3; (done || by apply os_path_exists_None).
  - by apply (H4 "regions.csv" regions_table).
  - apply H5; (done || by apply os_path_exists_None).
Defined.

(** ** The claims about dispatch *)

(** When the resolver returns [None], [main] ends before any call of the
    engine. *)
Lemma resolver_None_no_engine_call env args :
  resolve (env_fs env) args (env_model_attributes env) = Ok None →
  (main env args).1 = [].
Proof.
  intros Hres. unfold main, lift, raise, emit.
  destruct (get_models _ _ _) as [models|e]; cbn; [|done].
  destruct (get_regions _ _ _ _ _) as [regions_run|e]; cbn; [|done].
  by rewrite Hres.
Qed.

(** C1, at the failing inputs: once the three selectors have returned and
    the resolver gave a map, the guard of [main] tests the regions for
    [None], not for the empty list.  With the all-regions sentinel
    ([None]) [main] raises before any call of the engine; with a list of
    regions, the empty list included, it calls the engine's constructor
    with that list. *)
Theorem dispatch_guard_tests_regions_for_None env args models regions_run d :
  get_models (dict_get args "models") (env_model_attributes env) "," = Ok models →
  get_regions (env_float_repr env) (env_fs env) (dict_get args "regions")
    (env_regions_obj env) "," = Ok regions_run →
  resolve (env_fs env) args (env_model_attributes env) = Ok (Some d) →
  match regions_run with
  | None =>
      main env args = ([], Err (Exn RuntimeError [Lit msg_invalid_specification]))
  | Some regions =>
      ∃ init rest outcome,
        main env args = (Construct init :: rest, outcome)
        ∧ init_regions init = Some regions
  end.
Proof.
  intros Hm Hr Hd. unfold main, lift, raise, emit.
  rewrite Hm. cbn. rewrite Hr. cbn. rewrite Hd. cbn.
  destruct regions_run as [regions|].
  - rewrite (bool_decide_eq_false_2 (Some regions = None)) by done.
    rewrite bool_decide_eq_false_2.
    2:{ intros Hsz%map_size_empty_iff. by apply resolve_never_empty in Hd. }
    cbn.
    destruct (env_SISEPUEDE env _) as [sisepuede|e]; cbn.
    + destruct (call sisepuede _) as [out|e]; cbn; eauto.
    + eauto.
  - by rewrite (bool_decide_eq_true_2 (None = None)).
Qed.

Lemma dispatch_guard_tests_regions_for_None_witness :
  main env_stub args_all_regions
    = ([], Err (Exn RuntimeError [Lit msg_invalid_specification]))
  ∧ ∃ init rest outcome,
      main env_stub args_unknown_region = (Construct init :: rest, outcome)
      ∧ init_regions init = Some [].
Proof.
  split.
  - apply (dispatch_guard_tests_regions_for_None env_stub args_all_regions
             None None {["primary_id" := [1]]}); vm_compute; reflexivity.
  - apply (dispatch_guard_tests_regions_for_None env_stub args_unknown_region
             None (Some []) {["primary_id" := [1]]}); vm_compute; reflexivity.
Defined.

(** C10: every call of the engine that [main] makes, for any arguments and
    any environment, has [chunk_size = 2], [check_results = True] and
    [reinitialize_output_table_on_verification_failure = True]. *)
Theorem run_options_are_fixed env args r :
  Run r ∈ (main env args).1 →
  chunk_size r = 2
  ∧ check_results r = true
  ∧ reinitialize_output_table_on_verification_failure r = true.
Proof.
  unfold main, lift, raise, emit.
  destruct (get_models _ _ _) as [models|e]; cbn; [|by intros ?%elem_of_nil].
  destruct (get_regions _ _ _ _ _) as [regions_run|e]; cbn;
    [|by intros ?%elem_of_nil].
  destruct (get_dimensional_dict _ _ _ _ _ _ _) as [[d|]|e]; cbn;
    [|by intros ?%elem_of_nil..].
  destruct (_ || _); cbn; [by intros ?%elem_of_nil|].
  destruct (env_SISEPUEDE env _) as [sisepuede|e]; cbn.
  - destruct (call sisepuede _) as [out|e]; cbn;
      intros Hin; decompose_list_elem_of; simplify_eq; done.
  - intros Hin; decompose_list_elem_of; simplify_eq.
Qed.

Lemma run_options_are_fixed_witness :
  Run request_one_region ∈ (main env_stub args_one_region).1
  ∧ chunk_size request_one_region = 2
  ∧ check_results request_one_region = true
  ∧ reinitialize_output_table_on_verification_failure request_one_region = true.
Proof.
  assert (Run request_one_region ∈ (main env_stub args_one_region).1) as Hin.
  { vm_compute. apply list_elem_of_further, list_elem_of_here. }
  split; [exact Hin|].
  exact (run_options_are_fixed env_stub args_one_region request_one_region Hin).
Defined.

(** ** Further properties of [main] *)

Lemma dict_get_insert_eq (d : gmap string PyVal) k v :
  dict_get (<[k := v]> d) k = v.
Proof. unfold dict_get. by rewrite lookup_insert_eq. Qed.

Lemma dict_get_insert_ne (d : gmap string PyVal) k k' v :
  k ≠ k' → dict_get (<[k := v]> d) k' = dict_get d k'.
Proof. intros Hne. unfold dict_get. by rewrite lookup_insert_ne. Qed.

(** The resolver reads the argument dictionary at the four dimension keys
    only. *)
Lemma resolve_depends_on_cl_keys fs args args' ma :
  (∀ k, k ∈ cl_keys → dict_get args k = dict_get args' k) →
  resolve fs args ma = resolve fs args' ma.
Proof.
  intros Hk.
  assert (dict_get args "keys_primary" = dict_get args' "keys_primary") as Hp
    by (apply Hk; unfold cl_keys; repeat constructor).
  assert (dict_get args "keys_design" = dict_get args' "keys_design") as Hd
    by (apply Hk; unfold cl_keys; repeat constructor).
  assert (dict_get args "keys_future" = dict_get args' "keys_future") as Hf
    by (apply Hk; unfold cl_keys; repeat constructor).
  assert (dict_get args "keys_strategy" = dict_get args' "keys_strategy") as Hs
    by (apply Hk; unfold cl_keys; repeat constructor).
  destruct (decide (dict_get args "keys_primary" = PyNone)) as [Hnull|Hnull].
  - rewrite (resolve_no_primary fs args) by done.
    rewrite (resolve_no_primary fs args') by congruence.
    by rewrite Hd, Hf, Hs.
  - rewrite (resolve_primary fs args) by done.
    rewrite (resolve_primary fs args') by congruence.
    by rewrite Hp.
Qed.

(** X1: whatever the arguments and the environment, [main] constructs the
    engine at most once, runs it at most once and only after constructing
    it, logs completion only after the run, and returns (the value 0)
    exactly when all three happened; otherwise it raises. *)
Theorem main_run_shape env args : completed_or_failed (main env args).
Proof.
  unfold main, lift, raise, emit.
  destruct (get_models _ _ _) as [models|e]; cbn; [|done].
  destruct (get_regions _ _ _ _ _) as [regions_run|e]; cbn; [|done].
  destruct (get_dimensional_dict _ _ _ _ _ _ _) as [[d|]|e]; cbn; [|done..].
  destruct (_ || _); cbn; [done|].
  destruct (env_SISEPUEDE env _) as [sisepuede|e]; cbn; [|done].
  destruct (call sisepuede _) as [out|e]; cbn; done.
Qed.

(** X2: once [main] has reached the engine's constructor, the engine decides
    the outcome: an exception of the constructor or of the run is raised by
    [main] unchanged and nothing follows it; when both return, [main] logs
    one message that names the engine's id and returns 0. *)
Theorem engine_outcome_decides env args init rest outcome :
  main env args = (Construct init :: rest, outcome) →
  match env_SISEPUEDE env init with
  | Err e => rest = [] ∧ outcome = Err e
  | Ok sisepuede =>
      ∃ request,
        match call sisepuede request with
        | Err e => rest = [Run request] ∧ outcome = Err e
        | Ok _ =>
            rest = [Run request;
                    Log [Lit "SISEPUEDE run '"; Lit (sisepuede_id sisepuede);
                         Lit "' complete."] "info"]
            ∧ outcome = Ok 0
        end
  end.
Proof.
  unfold main, lift, raise, emit.
  destruct (get_models _ _ _) as [models|e]; cbn; [|done].
  destruct (get_regions _ _ _ _ _) as [regions_run|e]; cbn; [|done].
  destruct (get_dimensional_dict _ _ _ _ _ _ _) as [[d|]|e]; cbn; [|done..].
  destruct (_ || _); cbn; [done|].
  destruct (env_SISEPUEDE env _) as [sisepuede|e] eqn:Hc; cbn.
  - destruct (call sisepuede _) as [out|e] eqn:Hr; cbn;
      intros [= <- <- <-]; rewrite Hc; eexists; rewrite Hr; done.
  - intros [= <- <- <-]. by rewrite Hc.
Qed.

Lemma engine_outcome_decides_witness :
  ∃ request,
    [Run request_one_region;
     Log [Lit "SISEPUEDE run '"; Lit "run"; Lit "' complete."] "info"]
    = [Run request; Log [Lit "SISEPUEDE run '"; Lit "run"; Lit "' complete."] "info"]
    ∧ Ok 0 = Ok 0.
Proof.
  exact (engine_outcome_decides env_stub args_one_region init_one_region
           [Run request_one_region;
            Log [Lit "SISEPUEDE run '"; Lit "run"; Lit "' complete."] "info"]
           (Ok 0) ltac:(vm_compute; reflexivity)).
Defined.

(** X3: every constructor call of the engine that [main] makes passes the
    data mode ["calibrated"], a database type that is ["csv"] when the
    argument is ["csv"] and ["sqlite"] in every other case, the id, number
    of trials and random seed of the arguments unchanged, and as regions
    the list that [get_regions] returned, which is never the all-regions
    value [None]. *)
Theorem constructor_arguments env args init :
  Construct init ∈ (main env args).1 →
  init_data_mode init = "calibrated"
  ∧ init_db_type init
    = (if bool_decide (dict_get args "database_type" = PyStr "csv")
       then PyStr "csv" else PyStr "sqlite")
  ∧ init_id_str init = dict_get args "id"
  ∧ init_n_trials init = dict_get args "n_trials"
  ∧ init_random_seed init = dict_get args "random_seed"
  ∧ get_regions (env_float_repr env) (env_fs env) (dict_get args "regions")
      (env_regions_obj env) "," = Ok (init_regions init)
  ∧ init_regions init ≠ None.
Proof.
  unfold main, lift, raise, emit.
  destruct (get_models _ _ _) as [models|e]; cbn; [|by intros ?%elem_of_nil].
  destruct (get_regions _ _ _ _ _) as [regions_run|e]; cbn;
    [|by intros ?%elem_of_nil].
  destruct (get_dimensional_dict _ _ _ _ _ _ _) as [[d|]|e]; cbn;
    [|by intros ?%elem_of_nil..].
  destruct (bool_decide (regions_run = None)) eqn:Hreg; cbn;
    [by intros ?%elem_of_nil|].
  apply bool_decide_eq_false in Hreg.
  destruct (bool_decide (size d = 0%nat)); cbn; [by intros ?%elem_of_nil|].
  assert ((if bool_decide (dict_get args "database_type" ∉ [PyStr "sqlite"; PyStr "csv"])
           then PyStr "sqlite" else dict_get args "database_type")
          = (if bool_decide (dict_get args "database_type" = PyStr "csv")
             then PyStr "csv" else PyStr "sqlite")) as Hdb.
  { destruct (decide (dict_get args "database_type" = PyStr "csv")) as [->|Hcsv].
    - rewrite bool_decide_eq_false_2; [done|].
      intros Hn. apply Hn. right; left.
    - rewrite (bool_decide_eq_false_2 (_ = _)) by done.
      case_bool_decide as Hn; [done|].
      apply elem_of_cons in Hn as [Hn|Hn]; [done|].
      apply elem_of_cons in Hn as [Hn|Hn]; [by destruct Hcsv|].
      by apply elem_of_nil in Hn. }
  destruct (env_SISEPUEDE env _) as [sisepuede|e]; cbn.
  - destruct (call sisepuede _) as [out|e]; cbn;
      intros Hin; decompose_list_elem_of; simplify_eq; cbn; by rewrite Hdb.
  - intros Hin; decompose_list_elem_of; simplify_eq; cbn; by rewrite Hdb.
Qed.

Lemma constructor_arguments_witness :
  Construct init_one_region ∈ (main env_stub args_one_region).1
  ∧ init_db_type init_one_region = PyStr "sqlite"
  ∧ init_regions init_one_region ≠ None.
Proof.
  assert (Construct init_one_region ∈ (main env_stub args_one_region).1) as Hin.
  { vm_compute. apply list_elem_of_here. }
  split; [exact Hin|].
  destruct (constructor_arguments env_stub args_one_region init_one_region Hin)
    as (_ & Hdb & _ & _ & _ & _ & Hreg).
  split; [exact Hdb|exact Hreg].
Defined.

(** X4: every run request that [main] hands to the engine carries exactly
    the map that the resolver returned, which is never empty, and the
    values of [max_solve_attempts] and [save_inputs] of the arguments
    unchanged; the fuel-production model is included exactly when
    [exclude_fuel_production] is not truthy. *)
Theorem request_carries_selections env args r :
  Run r ∈ (main env args).1 →
  resolve (env_fs env) args (env_model_attributes env) = Ok (Some (dict_scenarios r))
  ∧ dict_scenarios r ≠ ∅
  ∧ max_attempts r = dict_get args "max_solve_attempts"
  ∧ save_inputs r = dict_get args "save_inputs"
  ∧ include_electricity_in_energy r
    = negb (truthy (dict_get args "exclude_fuel_production")).
Proof.
  unfold main, lift, raise, emit.
  destruct (get_models _ _ _) as [models|e]; cbn; [|by intros ?%elem_of_nil].
  destruct (get_regions _ _ _ _ _) as [regions_run|e]; cbn;
    [|by intros ?%elem_of_nil].
  destruct (get_dimensional_dict _ _ _ _ _ _ _) as [[d|]|e] eqn:Hd; cbn;
    [|by intros ?%elem_of_nil..].
  apply resolve_never_empty in Hd.
  destruct (_ || _); cbn; [by intros ?%elem_of_nil|].
  destruct (env_SISEPUEDE env _) as [sisepuede|e]; cbn.
  - destruct (call sisepuede _) as [out|e]; cbn;
      intros Hin; decompose_list_elem_of; simplify_eq; done.
  - intros Hin; decompose_list_elem_of; simplify_eq.
Qed.

Lemma request_carries_selections_witness :
  resolve ∅ args_one_region attrs_sectors = Ok (Some {["primary_id" := [1]]})
  ∧ max_attempts request_one_region = PyInt 2.
Proof.
  assert (Run request_one_region ∈ (main env_stub args_one_region).1) as Hin.
  { vm_compute. apply list_elem_of_further, list_elem_of_here. }
  destruct (request_carries_selections env_stub args_one_region
              request_one_region Hin) as (Hres & _ & Hmax & _).
  split; [exact Hres|exact Hmax].
Defined.

(** X5: the models selection is computed and not dispatched: replacing the
    [models] argument by any other value on which [get_models] also
    returns leaves the whole run of [main] (its calls of the engine and
    its outcome) the same. *)
Theorem models_selection_not_dispatched env args v selected selected' :
  get_models (dict_get args "models") (env_model_attributes env) "," = Ok selected →
  get_models v (env_model_attributes env) "," = Ok selected' →
  main env (<["models" := v]> args) = main env args.
Proof.
  intros Hm Hm'. unfold main.
  rewrite dict_get_insert_eq, Hm, Hm'.
  rewrite !dict_get_insert_ne by done.
  rewrite (resolve_depends_on_cl_keys _ (<["models" := v]> args) args).
  - done.
  - intros k Hk. apply dict_get_insert_ne. unfold cl_keys in Hk.
    decompose_list_elem_of; subst; done.
Qed.

Lemma models_selection_not_dispatched_witness :
  main env_stub (<["models" := PyStr "en"]> args_one_region)
  = main env_stub args_one_region.
Proof.
  apply (models_selection_not_dispatched env_stub args_one_region (PyStr "en")
           None (Some ["en"])); vm_compute; reflexivity.
Defined.

(** X6: [main] evaluates the models, then the regions, then the dimensions;
    the first of them that raises ends [main] with that exception, and a
    resolver result [None] ends it with the "no valid dimensional subsets"
    error; in all four cases no call of the engine has been made. *)
Theorem selector_errors_end_main env args :
  (∀ e,
      get_models (dict_get args "models") (env_model_attributes env) "," = Err e →
      main env args = ([], Err e))
  ∧ (∀ selected e,
      get_models (dict_get args "models") (env_model_attributes env) "," = Ok selected →
      get_regions (env_float_repr env) (env_fs env) (dict_get args "regions")
        (env_regions_obj env) "," = Err e →
      main env args = ([], Err e))
  ∧ (∀ selected regions_run e,
      get_models (dict_get args "models") (env_model_attributes env) "," = Ok selected →
      get_regions (env_float_repr env) (env_fs env) (dict_get args "regions")
        (env_regions_obj env) "," = Ok regions_run →
      resolve (env_fs env) args (env_model_attributes env) = Err e →
      main env args = ([], Err e))
  ∧ (∀ selected regions_run,
      get_models (dict_get args "models") (env_model_attributes env) "," = Ok selected →
      get_regions (env_float_repr env) (env_fs env) (dict_get args "regions")
        (env_regions_obj env) "," = Ok regions_run →
      resolve (env_fs env) args (env_model_attributes env) = Ok None →
      main env args = ([], Err (Exn RuntimeError [Lit msg_no_dimensions]))).
Proof.
  unfold main, lift, raise. repeat split.
  - intros e ->. done.
  - intros selected e -> ->. done.
  - intros selected regions_run e -> -> ->. done.
  - intros selected regions_run -> -> ->. done.
Qed.

Lemma selector_errors_end_main_witness :
  main env_no_registry args_unknown_model
    = ([], Err (Exn AttributeError
                  [Lit "'NoneType' object has no attribute 'key_values'"]))
  ∧ main env_unreadable args_regions_file
    = ([], Err (Exn RuntimeError
                  [Lit "Error trying to read keys from file "; Lit "bad.csv";
                   Lit ": ";
                   StrOf (Exn (OtherError "ParserError")
                            [Lit "Error tokenizing data"])]))
  ∧ main env_stub args_malformed_primary
    = ([], Err (Exn RuntimeError
                  [Lit "Error trying to read keys in input string: ";
                   StrOf (Exn ValueError
                            [Lit "invalid literal for int() with base 10: ";
                             ReprCut 200 "x"])]))
  ∧ main env_stub args_no_keys
    = ([], Err (Exn RuntimeError [Lit msg_no_dimensions])).
Proof.
  split; [|split; [|split]].
  - apply (proj1 (selector_errors_end_main env_no_registry args_unknown_model)).
    vm_compute. reflexivity.
  - apply (proj1 (proj2 (selector_errors_end_main env_unreadable args_regions_file))
             None); vm_compute; reflexivity.
  - apply (proj1 (proj2 (proj2 (selector_errors_end_main env_stub
                                  args_malformed_primary)))
             None (Some ["brazil"])); vm_compute; reflexivity.
  - apply (proj2 (proj2 (proj2 (selector_errors_end_main env_stub args_no_keys)))
             None (Some ["brazil"])); vm_compute; reflexivity.
Defined.

(** ** Further properties of the readers *)

Lemma mapM_result_Ok_inv {A B} (f : A → result B) l k :
  mapM f l = Ok k → Forall2 (λ x y, f x = Ok y) l k.
Proof.
  revert k. induction l as [|x l IH]; intros k; cbn.
  - intros [= <-]. constructor.
  - destruct (f x) as [y|e] eqn:Hx; cbn; [|done].
    destruct (mapM f l) as [k'|e]; cbn; [|done].
    intros [= <-]. constructor; [done|]. by apply IH.
Qed.

Lemma mapM_result_fmap {A B C} (f : A → result B) (g : B → C) l :
  mapM (λ x, g <$> f x) l = (fmap g) <$> mapM f l.
Proof.
  induction l as [|x l IH]; [done|].
  cbn. destruct (f x) as [y|e]; cbn; [|done].
  rewrite IH. by destruct (mapM f l).
Qed.

Lemma split_go_not_nil sep s skip acc : split_go sep s skip acc ≠ [].
Proof.
  revert skip acc. induction s as [|c s IH]; intros skip acc; cbn; [done|].
  destruct skip; [|apply IH]. case_match; [done|apply IH].
Qed.

Lemma split_Ok_not_nil s delim tokens : split s delim = Ok tokens → tokens ≠ [].
Proof.
  unfold split. destruct delim; [done|]. intros [= <-]. apply split_go_not_nil.
Qed.

(** X7: a string that names no existing path never reads as an empty list:
    when the reader returns, its values are the coerced tokens of the
    string, one per token, and there is at least one. *)
Theorem inline_read_is_never_empty {A} fs s key delim
    (return_type : scalar → result A) vals :
  os_path_exists fs s = false →
  get_dimensional_values fs (PyStr s) key delim return_type = Ok (Some vals) →
  vals ≠ []
  ∧ ∃ tokens,
      split s delim = Ok tokens
      ∧ Forall2 (λ t v, return_type (SStr t) = Ok v) tokens vals.
Proof.
  intros Hfs. rewrite get_dimensional_values_inline by done.
  destruct (split s delim) as [tokens|e] eqn:Hsplit; cbn; [|done].
  destruct (mapM return_type (SStr <$> tokens)) as [vals'|e] eqn:Hmap; cbn; [|done].
  intros [= <-]. apply mapM_result_Ok_inv, Forall2_fmap_l in Hmap.
  split; [|by exists tokens].
  intros ->. apply Forall2_nil_inv_r in Hmap.
  by apply split_Ok_not_nil in Hsplit.
Qed.

Lemma inline_read_is_never_empty_witness :
  [7; 8] ≠ ([] : list Z)
  ∧ ∃ tokens,
      split "7,8" "," = Ok tokens
      ∧ Forall2 (λ t v, py_int (SStr t) = Ok v) tokens [7; 8].
Proof.
  apply (inline_read_is_never_empty ∅ "7,8" "design_id" "," py_int [7; 8]).
  - by apply os_path_exists_None.
  - vm_compute. reflexivity.
Defined.

(** X8: the reader's own failures keep their cause: an existing path that
    [pd.read_csv] cannot read raises a [RuntimeError] that names the path
    and carries the exception of the read, and an empty delimiter on an
    inline string raises a [RuntimeError] that carries the "empty
    separator" error of [split]. *)
Theorem reader_failures_keep_cause {A} fs s key delim
    (return_type : scalar → result A) :
  (∀ e,
      fs !! s = Some (Err e) →
      get_dimensional_values fs (PyStr s) key delim return_type
      = Err (Exn RuntimeError
               [Lit "Error trying to read keys from file "; Lit s; Lit ": ";
                StrOf e]))
  ∧ (os_path_exists fs s = false →
     delim = EmptyString →
     get_dimensional_values fs (PyStr s) key delim return_type
     = Err (Exn RuntimeError
              [Lit "Error trying to read keys in input string: ";
               StrOf (Exn ValueError [Lit "empty separator"])])).
Proof.
  split.
  - intros e Hs. unfold get_dimensional_values. cbn [as_str PyStr].
    rewrite (os_path_exists_Some _ _ _ Hs). unfold pd_read_csv. by rewrite Hs.
  - intros Hfs ->. by rewrite get_dimensional_values_inline by done.
Qed.

Lemma reader_failures_keep_cause_witness :
  get_dimensional_values fs_unreadable (PyStr "bad.csv") "design_id" "," py_int
    = Err (Exn RuntimeError
             [Lit "Error trying to read keys from file "; Lit "bad.csv"; Lit ": ";
              StrOf (Exn (OtherError "ParserError") [Lit "Error tokenizing data"])])
  ∧ get_dimensional_values fs_unreadable (PyStr "1,2") "design_id" EmptyString
      py_int
    = Err (Exn RuntimeError
             [Lit "Error trying to read keys in input string: ";
              StrOf (Exn ValueError [Lit "empty separator"])]).
Proof.
  split.
  - by apply (proj1 (reader_failures_keep_cause fs_unreadable "bad.csv"
                       "design_id" "," py_int)).
  - apply (proj2 (reader_failures_keep_cause fs_unreadable "1,2"
                    "design_id" EmptyString py_int)); [|done].
    by apply os_path_exists_None.
Defined.

(** X9: on every string input the reader of [support_functions.py], called
    for integers, does what the reader of [sisepuede_cl.py] does: the same
    values, [None] or exception, for every file system, key and
    delimiter. *)
Theorem sibling_reader_agrees_on_strings fs s key delim :
  support_functions.get_dimensional_values fs (PyStr s) key delim
    support_functions.type_int
  = match get_dimensional_values fs (PyStr s) key delim py_int with
    | Ok (Some zs) => Ok (Some (SInt <$> zs))
    | Ok None => Ok None
    | Err e => Err e
    end.
Proof.
  unfold support_functions.get_dimensional_values, get_dimensional_values.
  cbn. destruct (os_path_exists fs s).
  - destruct (pd_read_csv fs s) as [df|e]; cbn; [|done].
    destruct (df !! key) as [column|]; [|done].
    rewrite mapM_result_fmap. by destruct (mapM py_int column).
  - destruct (split s delim) as [tokens|e]; cbn; [|done].
    rewrite mapM_result_fmap. by destruct (mapM py_int _).
Qed.

(** X10: on inputs that are not strings the reader of
    [support_functions.py], called for integers, never looks at the file
    system: a list is coerced element by element, and an element that does
    not coerce fails the call with a [RuntimeError] that carries what [int]
    raised on the first such element; an integer is returned as the
    one-element list of itself, and a boolean too, uncoerced; a float and
    [None] give [None]. *)
Theorem sibling_reader_on_other_inputs fs key delim :
  (∀ l zs,
      Forall2 (λ x z, py_int x = Ok z) l zs →
      support_functions.get_dimensional_values fs (PyList l) key delim
        support_functions.type_int = Ok (Some (SInt <$> zs)))
  ∧ (∀ pre x post e,
      Forall (λ y, ∃ z, py_int y = Ok z) pre →
      py_int x = Err e →
      support_functions.get_dimensional_values fs (PyList (pre ++ x :: post)%list)
        key delim support_functions.type_int
      = Err (Exn RuntimeError
               [Lit "Error converting elements to integer in get_dimensional_values(): ";
                StrOf e]))
  ∧ (∀ l,
      Exists (λ x, ∀ z, py_int x ≠ Ok z) l →
      ∃ pre x post e,
        l = (pre ++ x :: post)%list
        ∧ Forall (λ y, ∃ z, py_int y = Ok z) pre
        ∧ py_int x = Err e
        ∧ support_functions.get_dimensional_values fs (PyList l) key delim
            support_functions.type_int
          = Err (Exn RuntimeError
                   [Lit "Error converting elements to integer in get_dimensional_values(): ";
                    StrOf e]))
  ∧ (∀ z,
      support_functions.get_dimensional_values fs (PyInt z) key delim
        support_functions.type_int = Ok (Some [SInt z]))
  ∧ (∀ b,
      support_functions.get_dimensional_values fs (PyBool b) key delim
        support_functions.type_int = Ok (Some [SBool b]))
  ∧ (∀ f,
      support_functions.get_dimensional_values fs (PyScalar (SFloat f)) key delim
        support_functions.type_int = Ok None)
  ∧ support_functions.get_dimensional_values fs PyNone key delim
      support_functions.type_int = Ok None.
Proof.
  assert (∀ pre x post e,
    Forall (λ y, ∃ z, py_int y = Ok z) pre →
    py_int x = Err e →
    support_functions.get_dimensional_values fs (PyList (pre ++ x :: post)%list)
      key delim support_functions.type_int
    = Err (Exn RuntimeError
             [Lit "Error converting elements to integer in get_dimensional_values(): ";
              StrOf e])) as Hfail.
  { intros pre x post e Hpre Hx.
    unfold support_functions.get_dimensional_values. cbn.
    by rewrite mapM_result_fmap, (mapM_result_first_Err py_int _ _ _ e). }
  repeat split; try done.
  - intros l zs Hzs. unfold support_functions.get_dimensional_values. cbn.
    rewrite mapM_result_fmap, (mapM_result_Ok _ _ _ Hzs). done.
  - intros l HE.
    destruct (Exists_first_Err py_int l HE) as (pre & x & post & e & -> & Hpre & Hx).
    exists pre, x, post, e. eauto.
Qed.

Lemma sibling_reader_on_other_inputs_witness :
  support_functions.get_dimensional_values ∅ (PyList [SStr "4"; SInt 5])
    "design_id" "," support_functions.type_int = Ok (Some [SInt 4; SInt 5])
  ∧ support_functions.get_dimensional_values ∅
      (PyList [SStr "4"; SStr "x"; SFloat FNan])
      "design_id" "," support_functions.type_int
    = Err (Exn RuntimeError
             [Lit "Error converting elements to integer in get_dimensional_values(): ";
              StrOf (Exn ValueError
                       [Lit "invalid literal for int() with base 10: ";
                        ReprCut 200 "x"])])
  ∧ ∃ pre x post e,
      [SStr "4"; SFloat FNan] = (pre ++ x :: post)%list
      ∧ Forall (λ y, ∃ z, py_int y = Ok z) pre
      ∧ py_int x = Err e
      ∧ support_functions.get_dimensional_values ∅ (PyList [SStr "4"; SFloat FNan])
          "design_id" "," support_functions.type_int
        = Err (Exn RuntimeError
                 [Lit "Error converting elements to integer in get_dimensional_values(): ";
                  StrOf e]).
Proof.
  pose proof (sibling_reader_on_other_inputs ∅ "design_id" ",")
    as (H1 & H2 & H3 & _).
  split; [|split].
  - apply (H1 [SStr "4"; SInt 5] [4; 5]). repeat constructor.
  - apply (H2 [SStr "4"] (SStr "x") [SFloat FNan]); [|reflexivity].
    repeat constructor. by exists 4.
  - apply H3. apply Exists_cons_tl, Exists_cons_hd. intros z. vm_compute.
    discriminate.
Defined.

(** ** Further properties of the resolver *)

Lemma update_if_not_none_lookup (d : gmap string (list Z)) key vals k :
  update_if_not_none d key vals !! k
  = if decide (key = k)
    then (match vals with Some v => Some v | None => d !! k end)
    else d !! k.
Proof.
  destruct vals as [v|]; cbn.
  - rewrite lookup_insert. by destruct (decide (key = k)).
  - by destruct (decide (key = k)).
Qed.

(** X11: with a primary selector present, the design, future and strategy
    selectors are not read at all: two argument dictionaries with the same
    primary selector resolve alike, to the same map, [None] or exception,
    even when the other selectors of one of them are malformed. *)
Theorem primary_hides_other_selectors fs args args' ma :
  dict_get args "keys_primary" ≠ PyNone →
  dict_get args' "keys_primary" = dict_get args "keys_primary" →
  resolve fs args' ma = resolve fs args ma.
Proof.
  intros Hp Heq.
  rewrite (resolve_primary fs args) by done.
  rewrite (resolve_primary fs args') by congruence.
  by rewrite Heq.
Qed.

Lemma primary_hides_other_selectors_witness :
  resolve ∅ args_primary_and_bad_design attrs0
  = resolve ∅ args_primary_design_future attrs0.
Proof.
  apply primary_hides_other_selectors.
  - vm_compute. discriminate.
  - vm_compute. reflexivity.
Defined.

(** X12: without a primary selector and with three distinct dimension keys,
    a map returned by the resolver holds, under each of the design, future
    and strategy keys, exactly what the reader returned for that selector
    (no entry where the reader returned [None]), and it has no other
    key. *)
Theorem no_primary_resolution fs args ma d :
  dict_get args "keys_primary" = PyNone →
  NoDup [dim_design_id ma; dim_future_id ma; dim_strategy_id ma] →
  resolve fs args ma = Ok (Some d) →
  get_dimensional_values fs (dict_get args "keys_design")
    (dim_design_id ma) "," py_int = Ok (d !! dim_design_id ma)
  ∧ get_dimensional_values fs (dict_get args "keys_future")
      (dim_future_id ma) "," py_int = Ok (d !! dim_future_id ma)
  ∧ get_dimensional_values fs (dict_get args "keys_strategy")
      (dim_strategy_id ma) "," py_int = Ok (d !! dim_strategy_id ma)
  ∧ ∀ k, is_Some (d !! k) →
         k ∈ [dim_design_id ma; dim_future_id ma; dim_strategy_id ma].
Proof.
  intros Hp Hnd. rewrite (resolve_no_primary _ _ _ Hp).
  apply NoDup_cons in Hnd as [Hdf Hnd]. apply NoDup_cons in Hnd as [Hfs _].
  assert (dim_design_id ma ≠ dim_future_id ma)
    by (intros Heq; apply Hdf; rewrite Heq; left).
  assert (dim_design_id ma ≠ dim_strategy_id ma)
    by (intros Heq; apply Hdf; rewrite Heq; right; left).
  assert (dim_future_id ma ≠ dim_strategy_id ma)
    by (intros Heq; apply Hfs; rewrite Heq; left).
  destruct (get_dimensional_values fs (dict_get args "keys_design") _ _ _)
    as [vd|e]; cbn; [|done].
  destruct (get_dimensional_values fs (dict_get args "keys_future") _ _ _)
    as [vf|e]; cbn; [|done].
  destruct (get_dimensional_values fs (dict_get args "keys_strategy") _ _ _)
    as [vs|e]; cbn; [|done].
  case_bool_decide; [done|]. intros [= <-].
  rewrite !update_if_not_none_lookup, !lookup_empty.
  repeat split.
  - repeat case_decide; try congruence. by destruct vd.
  - repeat case_decide; try congruence. by destruct vf.
  - repeat case_decide; try congruence. by destruct vs.
  - intros k. rewrite !update_if_not_none_lookup, lookup_empty.
    destruct (decide (dim_strategy_id ma = k)) as [<-|];
      [intros _; right; right; left|].
    destruct (decide (dim_future_id ma = k)) as [<-|];
      [intros _; right; left|].
    destruct (decide (dim_design_id ma = k)) as [<-|];
      [intros _; left|].
    by intros [? ?].
Qed.

Lemma no_primary_resolution_witness :
  get_dimensional_values ∅ (dict_get args_design_strategy "keys_future")
    "future_id" "," py_int
  = Ok ((<["strategy_id" := [7]]> {["design_id" := [1; 2]]} : gmap string (list Z))
          !! "future_id").
Proof.
  apply (no_primary_resolution ∅ args_design_strategy attrs0
           (<["strategy_id" := [7]]> {["design_id" := [1; 2]]})).
  - reflexivity.
  - by apply (bool_decide_unpack _).
  - vm_compute. reflexivity.
Defined.

(** X13: without a primary selector the dimensions are read in the order
    design, future, strategy, and the first read that raises fails the
    whole resolution with its exception, whatever the other selectors
    hold. *)
Theorem first_failing_dimension_fails_resolution fs args ma e :
  dict_get args "keys_primary" = PyNone →
  (get_dimensional_values fs (dict_get args "keys_design")
     (dim_design_id ma) "," py_int = Err e →
   resolve fs args ma = Err e)
  ∧ (∀ vd,
      get_dimensional_values fs (dict_get args "keys_design")
        (dim_design_id ma) "," py_int = Ok vd →
      get_dimensional_values fs (dict_get args "keys_future")
        (dim_future_id ma) "," py_int = Err e →
      resolve fs args ma = Err e)
  ∧ (∀ vd vf,
      get_dimensional_values fs (dict_get args "keys_design")
        (dim_design_id ma) "," py_int = Ok vd →
      get_dimensional_values fs (dict_get args "keys_future")
        (dim_future_id ma) "," py_int = Ok vf →
      get_dimensional_values fs (dict_get args "keys_strategy")
        (dim_strategy_id ma) "," py_int = Err e →
      resolve fs args ma = Err e).
Proof.
  intros Hp. rewrite (resolve_no_primary _ _ _ Hp). repeat split.
  - by intros ->.
  - by intros vd -> ->.
  - by intros vd vf -> -> ->.
Qed.

Lemma first_failing_dimension_fails_resolution_witness :
  resolve ∅ args_bad_future attrs0
  = Err (Exn RuntimeError
           [Lit "Error trying to read keys in input string: ";
            StrOf (Exn ValueError
                     [Lit "invalid literal for int() with base 10: ";
                      ReprCut 200 "x"])]).
Proof.
  apply (proj1 (proj2 (first_failing_dimension_fails_resolution ∅ args_bad_future
                         attrs0 _ eq_refl))
           (Some [1; 2])); vm_compute; reflexivity.
Defined.

(** ** Further functions of python/support_functions.py *)

Lemma filter_tuple_snoc {A} (tup : list A) a l :
  support_functions.filter_tuple (tup ++ [a]) (inr l)
  = (support_functions.filter_tuple tup (inr l)
       ++ if bool_decide (Z.of_nat (length tup) ∈ l) then [] else [a])%list.
Proof.
  unfold support_functions.filter_tuple. rewrite length_app. cbn [length].
  rewrite Nat.add_1_r, seq_S, omap_app. cbn [omap Nat.add]. f_equal.
  - apply list_omap_ext, Forall_Forall2_diag, Forall_forall.
    intros x Hx%elem_of_seq. case_bool_decide; [|done].
    apply lookup_app_l. lia.
  - cbn. rewrite list_lookup_middle by done.
    case_bool_decide as H1; case_bool_decide as H2; done.
Qed.

Lemma filter_tuple_nil {A} l :
  support_functions.filter_tuple (@nil A) (inr l) = [].
Proof. done. Qed.

Lemma filter_tuple_app {A} (tup1 tup2 : list A) l :
  support_functions.filter_tuple (tup1 ++ tup2) (inr l)
  = (support_functions.filter_tuple tup1 (inr l)
       ++ support_functions.filter_tuple tup2
            (inr ((λ i, i - Z.of_nat (length tup1)) <$> l)))%list.
Proof.
  induction tup2 as [|a tup2 IH] using rev_ind.
  - by rewrite filter_tuple_nil, !app_nil_r.
  - rewrite app_assoc, !filter_tuple_snoc, IH, length_app, <-app_assoc.
    do 2 f_equal.
    assert (Z.of_nat (length tup1 + length tup2) ∈ l
            ↔ Z.of_nat (length tup2) ∈ (λ i, i - Z.of_nat (length tup1)) <$> l)
      as Hiff.
    { rewrite list_elem_of_fmap. split.
      - intros Hin. eexists. split; [|exact Hin]. lia.
      - intros (i & Hi & Hin). replace (Z.of_nat _) with i by lia. done. }
    repeat case_bool_decide; tauto.
Qed.

Lemma filter_tuple_out_of_range {A} (tup : list A) l :
  (∀ i, i ∈ l → i < 0 ∨ Z.of_nat (length tup) ≤ i) →
  support_functions.filter_tuple tup (inr l) = tup.
Proof.
  induction tup as [|a tup IH] using rev_ind; [done|].
  intros Hout. rewrite filter_tuple_snoc, bool_decide_eq_false_2.
  - f_equal. apply IH. intros i Hi. specialize (Hout i Hi).
    rewrite length_app in Hout. lia.
  - intros Hin. specialize (Hout _ Hin). rewrite length_app in Hout.
    cbn in Hout. lia.
Qed.

(** X14: [filter_tuple] with a list of indices keeps, in their order, the
    elements at the positions that are not listed: every element whose
    position is not listed is kept, the result is a subsequence of the
    tuple, and its length is the length of the tuple less the number of
    positions listed.  Indices outside the tuple, the negative ones
    included, remove nothing. *)
Theorem filter_tuple_keeps_the_other_positions {A} (tup : list A) l :
  (∀ i a, tup !! i = Some a →
      a ∈ support_functions.filter_tuple tup (inr l) ∨ Z.of_nat i ∈ l)
  ∧ support_functions.filter_tuple tup (inr l) `sublist_of` tup
  ∧ ((∀ i, i ∈ l → i < 0 ∨ Z.of_nat (length tup) ≤ i) →
     support_functions.filter_tuple tup (inr l) = tup)
  ∧ (length (support_functions.filter_tuple tup (inr l))
     + length (filter (λ x, Z.of_nat x ∈ l) (seq 0 (length tup))))%nat
    = length tup.
Proof.
  split; [|split; [|split; [apply filter_tuple_out_of_range|]]].
  - induction tup as [|a tup IH] using rev_ind; [done|].
    intros i b Hi. rewrite filter_tuple_snoc.
    apply lookup_app_Some in Hi as [Hi|[Hlen Hi]].
    + destruct (IH i b Hi) as [Hin|Hin]; [left|by right].
      apply elem_of_app. by left.
    + apply list_lookup_singleton_Some in Hi as [Hi <-].
      replace i with (length tup) by lia.
      case_bool_decide; [by right|left]. apply elem_of_app. right. by left.
  - induction tup as [|a tup IH] using rev_ind; [done|].
    rewrite filter_tuple_snoc.
    apply sublist_app; [done|]. case_bool_decide; [apply sublist_nil_l|done].
  - induction tup as [|a tup IH] using rev_ind; [done|].
    rewrite filter_tuple_snoc.
    rewrite !length_app. cbn [length]. rewrite Nat.add_1_r, seq_S, filter_app.
    rewrite length_app. cbn [Nat.add].
    rewrite filter_cons, filter_nil.
    case_bool_decide; [rewrite decide_True by done|rewrite decide_False by done];
      cbn [length]; lia.
Qed.

Lemma filter_tuple_keeps_the_other_positions_witness :
  support_functions.filter_tuple [10; 20; 30] (inr [-1; 3; 7]) = [10; 20; 30].
Proof.
  apply (proj1 (proj2 (proj2 (filter_tuple_keeps_the_other_positions
                                [10; 20; 30] [-1; 3; 7])))).
  intros i Hi. decompose_list_elem_of; subst; cbn; lia.
Defined.

(** X15: [filter_tuple] with a single index inside the tuple removes the
    element at that position and keeps the others in order; with an index
    outside the tuple, a negative one included, it returns the tuple
    unchanged. *)
Theorem filter_tuple_single_index {A} (tup : list A) i :
  (0 ≤ i < Z.of_nat (length tup) →
   support_functions.filter_tuple tup (inl i)
   = (take (Z.to_nat i) tup ++ drop (S (Z.to_nat i)) tup)%list)
  ∧ (i < 0 ∨ Z.of_nat (length tup) ≤ i →
     support_functions.filter_tuple tup (inl i) = tup).
Proof.
  change (support_functions.filter_tuple tup (inl i))
    with (support_functions.filter_tuple tup (inr [i])).
  split.
  - intros Hi.
    destruct (lookup_lt_is_Some_2 tup (Z.to_nat i) ltac:(lia)) as [a Ha].
    rewrite <-(take_drop_middle tup (Z.to_nat i) a Ha) at 1.
    rewrite filter_tuple_app. change (a :: ?l) with ([a] ++ l)%list.
    rewrite filter_tuple_app.
    assert (length (take (Z.to_nat i) tup) = Z.to_nat i) as Hlen
      by (rewrite length_take; lia).
    rewrite Hlen. cbn [fmap list_fmap length].
    rewrite (filter_tuple_out_of_range (take (Z.to_nat i) tup) [i]).
    2:{ intros j Hj%list_elem_of_singleton. subst. rewrite Hlen. lia. }
    rewrite (filter_tuple_out_of_range (drop (S (Z.to_nat i)) tup)).
    2:{ intros j Hj%list_elem_of_singleton. subst. lia. }
    f_equal. unfold support_functions.filter_tuple. cbn.
    rewrite bool_decide_eq_false_2; [done|].
    intros Hn. apply Hn. apply list_elem_of_singleton. lia.
  - intros Hi. apply filter_tuple_out_of_range.
    intros j Hj%list_elem_of_singleton. by subst.
Qed.

Lemma filter_tuple_single_index_witness :
  support_functions.filter_tuple ["a"; "b"; "c"] (inl 1) = ["a"; "c"]
  ∧ support_functions.filter_tuple ["a"; "b"; "c"] (inl (-1)) = ["a"; "b"; "c"].
Proof.
  split.
  - apply (proj1 (filter_tuple_single_index ["a"; "b"; "c"] 1)). cbn. lia.
  - apply (proj2 (filter_tuple_single_index ["a"; "b"; "c"] (-1))). lia.
Defined.

Lemma days_per_month_table year month :
  support_functions.days_per_month (year, month)
  = if decide (1 ≤ month ≤ 12) then
      Some (if decide (month = 2)
            then (if bool_decide (year mod 4 = 0) then 29 else 28)
            else if decide (month = 4 ∨ month = 6 ∨ month = 9 ∨ month = 11)
                 then 30 else 31)
    else None.
Proof.
  unfold support_functions.days_per_month. cbn [fst snd].
  destruct (year mod 4 =? 0) eqn:Hy;
    [apply Z.eqb_eq in Hy; rewrite (bool_decide_eq_true_2 _ Hy)
    |apply Z.eqb_neq in Hy; rewrite (bool_decide_eq_false_2 _ Hy)];
    cbn;
    repeat (rewrite lookup_insert; case_decide;
            [subst; repeat case_decide; (done || lia)|]);
    rewrite lookup_empty; case_decide; (done || lia).
Qed.

(** X16: [days_per_month] returns a number of days exactly for the months
    1 to 12 and [None] for any other month; the number is between 28 and
    31; February has 29 days exactly in the years divisible by 4 (century
    years included) and 28 days otherwise; and the twelve months of a year
    add up to 366 days in the years divisible by 4 and to 365 otherwise. *)
Theorem days_per_month_calendar year :
  (∀ month,
      is_Some (support_functions.days_per_month (year, month)) ↔ 1 ≤ month ≤ 12)
  ∧ (∀ month d,
      support_functions.days_per_month (year, month) = Some d → 28 ≤ d ≤ 31)
  ∧ (support_functions.days_per_month (year, 2)
     = Some (if bool_decide (year mod 4 = 0) then 29 else 28))
  ∧ (∃ ds,
      mapM (λ month, support_functions.days_per_month (year, month)) (seqZ 1 12)
      = Some ds
      ∧ foldr Z.add 0 ds = if bool_decide (year mod 4 = 0) then 366 else 365).
Proof.
  split; [|split; [|split]].
  - intros month. rewrite days_per_month_table.
    case_decide; split; (done || by intros [? ?] || by eexists).
  - intros month d. rewrite days_per_month_table.
    case_decide; [|done]. intros [= <-].
    repeat case_decide; try case_bool_decide; lia.
  - by rewrite days_per_month_table.
  - unfold support_functions.days_per_month. cbn [fst snd].
    destruct (year mod 4 =? 0) eqn:Hy;
      [apply Z.eqb_eq in Hy; rewrite (bool_decide_eq_true_2 _ Hy)
      |apply Z.eqb_neq in Hy; rewrite (bool_decide_eq_false_2 _ Hy)];
      eexists; split; reflexivity.
Qed.

Lemma days_per_month_calendar_witness :
  28 ≤ 29 ≤ 31 ∧ 1 ≤ 2 ≤ 12.
Proof.
  split.
  - apply (proj1 (proj2 (days_per_month_calendar 1900)) 2 29). reflexivity.
  - apply (proj1 (days_per_month_calendar 1900) 2). by eexists.
Defined.

(** ** Sets of names *)









(** X20: [str_split] with a non-empty delimiter never raises and converts
    all or nothing: when every piece converts to [return_type] it returns
    the converted pieces in order, and when some piece does not it returns
    every piece as the string it was, the convertible ones included. *)
Theorem str_split_converts_all_or_nothing x delim return_type tokens :
  split x delim = Ok tokens →
  (∀ converted,
      Forall2 (λ t v, support_functions.py_call return_type (SStr t) = Ok v)
        tokens converted →
      support_functions.str_split x delim return_type = Ok converted)
  ∧ (Exists (λ t, ∀ v, support_functions.py_call return_type (SStr t) ≠ Ok v)
       tokens →
     support_functions.str_split x delim return_type = Ok (SStr <$> tokens)).
Proof.
  intros Hsplit. unfold support_functions.str_split. rewrite Hsplit. cbn. split.
  - intros converted Hc.
    rewrite (mapM_result_Ok _ (SStr <$> tokens) converted); [done|].
    by apply Forall2_fmap_l.
  - intros HE.
    destruct (mapM_result_Exists_Err (support_functions.py_call return_type)
                (SStr <$> tokens)) as (y & e & _ & _ & Hm).
    { by apply Exists_fmap. }
    by rewrite Hm.
Qed.

Lemma str_split_converts_all_or_nothing_witness :
  support_functions.str_split "1,2" "," support_functions.type_int
    = Ok [SInt 1; SInt 2]
  ∧ support_functions.str_split "1,x" "," support_functions.type_int
    = Ok [SStr "1"; SStr "x"].
Proof.
  split.
  - apply (proj1 (str_split_converts_all_or_nothing "1,2" ","
                    support_functions.type_int ["1"; "2"] eq_refl)).
    repeat constructor.
  - apply (proj2 (str_split_converts_all_or_nothing "1,x" ","
                    support_functions.type_int ["1"; "x"] eq_refl)).
    apply Exists_cons_tl, Exists_cons_hd. intros v. vm_compute. discriminate.
Defined.

(** ** Reversing a dictionary *)

Lemma size_list_to_set_le `{Countable A} (l : list A) :
  (size (list_to_set l : gset A) ≤ length l)%nat.
Proof.
  induction l as [|x l IH]; [done|]. cbn.
  destruct (decide (x ∈ l)) as [Hin|Hin].
  - rewrite (subseteq_union_1_L {[x]} (list_to_set l)); [lia|].
    intros y ->%elem_of_singleton. by apply elem_of_list_to_set.
  - rewrite size_union, size_singleton; [lia|].
    intros y ->%elem_of_singleton Hy. by apply elem_of_list_to_set in Hy.
Qed.

Lemma size_list_to_set_NoDup `{Countable A} (l : list A) :
  size (list_to_set l : gset A) = length l ↔ NoDup l.
Proof.
  split; [|apply size_list_to_set].
  induction l as [|x l IH]; [constructor|]. cbn. intros Hsz.
  pose proof (size_list_to_set_le l) as Hle.
  destruct (decide (x ∈ l)) as [Hin|Hin].
  - rewrite (subseteq_union_1_L {[x]} (list_to_set l)) in Hsz; [lia|].
    intros y ->%elem_of_singleton. by apply elem_of_list_to_set.
  - rewrite size_union, size_singleton in Hsz.
    + constructor; [done|]. apply IH. lia.
    + intros y ->%elem_of_singleton Hy. by apply elem_of_list_to_set in Hy.
Qed.

Section ReverseDictProofs.
Context {K V : Type} `{Countable K, Countable V}.

(** For a dictionary (its keys are distinct) the length test of
    [reverse_dict] is the test that its values repeat. *)
Lemma reverse_dict_test (dict_in : list (K * V)) :
  NoDup dict_in.*1 →
  size (list_to_set dict_in.*2 : gset V) ≠ size (list_to_set dict_in.*1 : gset K)
  ↔ ¬ NoDup dict_in.*2.
Proof.
  intros Hk. rewrite (size_list_to_set dict_in.*1) by done.
  rewrite length_fmap, <-(length_fmap snd), <-size_list_to_set_NoDup. done.
Qed.

Lemma items_get_elem_of (dict_in : list (K * V)) k v :
  NoDup dict_in.*1 →
  support_functions.items_get dict_in k = Some v ↔ (k, v) ∈ dict_in.
Proof.
  intros Hk. unfold support_functions.items_get.
  by rewrite <-elem_of_list_to_map.
Qed.

Lemma reversed_items_lookup {R} (wrap : K → R) (dict_in : list (K * V)) v r :
  NoDup dict_in.*2 →
  (list_to_map ((λ kv, (kv.2, wrap kv.1)) <$> reverse dict_in) : gmap V R) !! v
  = Some r
  ↔ ∃ k, (k, v) ∈ dict_in ∧ r = wrap k.
Proof.
  intros Hv. rewrite <-elem_of_list_to_map.
  - rewrite list_elem_of_fmap. split.
    + intros ([k v'] & [= -> ->] & Hin). rewrite elem_of_reverse in Hin.
      by exists k.
    + intros (k & Hin & ->). exists (k, v). by rewrite elem_of_reverse.
  - assert (∀ l : list (K * V), ((λ kv, (kv.2, wrap kv.1)) <$> l).*1 = l.*2)
      as Hkeys by (intros l; induction l; cbn; congruence).
    rewrite Hkeys, fmap_reverse. by rewrite reverse_Permutation.
Qed.

(** X21: on a dictionary whose values are distinct, [reverse_dict] returns
    the inverse mapping, whatever [allow_multi_keys] is: the reversed
    dictionary maps [v] to [k] exactly when the dictionary maps [k] to [v];
    with [force_list_values] it maps [v] to the one-element list of [k]
    instead. *)
Theorem reverse_dict_inverts_lookup (dict_in : list (K * V)) allow_multi_keys :
  NoDup dict_in.*1 →
  NoDup dict_in.*2 →
  (∃ dict_out,
      support_functions.reverse_dict dict_in allow_multi_keys false = Ok dict_out
      ∧ ∀ k v, dict_out !! v = Some (support_functions.One k)
               ↔ support_functions.items_get dict_in k = Some v)
  ∧ (∃ dict_out,
      support_functions.reverse_dict dict_in allow_multi_keys true = Ok dict_out
      ∧ ∀ k v, dict_out !! v = Some (support_functions.Many [k])
               ↔ support_functions.items_get dict_in k = Some v).
Proof.
  intros Hk Hv. unfold support_functions.reverse_dict.
  rewrite bool_decide_eq_false_2 by (rewrite reverse_dict_test by done; tauto).
  split; eexists; (split; [done|]); intros k v; cbn [negb];
    rewrite items_get_elem_of by done.
  - rewrite (reversed_items_lookup support_functions.One) by done.
    split; [by intros (k' & Hin & [= ->])|eauto].
  - rewrite (reversed_items_lookup (λ k, support_functions.Many [k])) by done.
    split; [by intros (k' & Hin & [= ->])|eauto].
Qed.

(** X22: on a dictionary in which some value repeats, [reverse_dict]
    raises a [KeyError] unless [allow_multi_keys] is set; with it set, the
    reversed dictionary has exactly the values of the dictionary as keys
    and maps each to the list, in the dictionary's order, of the keys that
    held it, so that [k] is listed under [v] exactly when the dictionary
    maps [k] to [v]. *)
Theorem reverse_dict_of_repeated_values (dict_in : list (K * V))
    force_list_values :
  NoDup dict_in.*1 →
  ¬ NoDup dict_in.*2 →
  support_functions.reverse_dict dict_in false force_list_values
  = Err (Exn KeyError
           [Lit "Invalid dicionary in reverse_dict: the dictionary is not injective."])
  ∧ ∃ dict_out,
      support_functions.reverse_dict dict_in true force_list_values = Ok dict_out
      ∧ (∀ v ks,
            dict_out !! v = Some ks
            ↔ v ∈ dict_in.*2
              ∧ ks = support_functions.Many
                       (filter (λ k, support_functions.items_get dict_in k = Some v)
                          dict_in.*1))
      ∧ (∀ k v,
            support_functions.items_get dict_in k = Some v
            ↔ ∃ ks, dict_out !! v = Some (support_functions.Many ks) ∧ k ∈ ks).
Proof.
  intros Hk Hv. unfold support_functions.reverse_dict.
  rewrite !bool_decide_eq_true_2 by (by rewrite reverse_dict_test).
  split; [done|]. cbn. eexists. split; [done|].
  assert (∀ v ks,
    (set_to_map
       (λ v0 : V,
          (v0, support_functions.Many
                 (filter (λ k, support_functions.items_get dict_in k = Some v0)
                    dict_in.*1)))
       (list_to_set dict_in.*2 : gset V)
       : gmap V (support_functions.reversed K)) !! v = Some ks
    ↔ v ∈ dict_in.*2
      ∧ ks = support_functions.Many
               (filter (λ k, support_functions.items_get dict_in k = Some v)
                  dict_in.*1)) as Hlook.
  { intros v ks. rewrite lookup_set_to_map by (by intros ?? _ _ [= ->]).
    split.
    - intros (v' & Hin%elem_of_list_to_set & [= -> <-]). done.
    - intros [Hin ->]. exists v. by rewrite elem_of_list_to_set. }
  split; [exact Hlook|].
  intros k v. split.
  - intros Hget. eexists. rewrite Hlook. split; [split; [|done]|].
    + apply items_get_elem_of in Hget; [|done].
      apply list_elem_of_fmap. by exists (k, v).
    + apply list_elem_of_filter. split; [done|].
      apply items_get_elem_of in Hget; [|done].
      apply list_elem_of_fmap. by exists (k, v).
  - intros (ks & [_ [= ->]]%Hlook & Hin).
    by apply list_elem_of_filter in Hin as [? _].
Qed.
End ReverseDictProofs.

Lemma reverse_dict_inverts_lookup_witness :
  ∃ dict_out,
    support_functions.reverse_dict items_ab false false = Ok dict_out
    ∧ ∀ k v, dict_out !! v = Some (support_functions.One k)
             ↔ support_functions.items_get items_ab k = Some v.
Proof.
  apply (proj1 (reverse_dict_inverts_lookup items_ab false
                  ltac:(by apply (bool_decide_unpack _))
                  ltac:(by apply (bool_decide_unpack _)))).
Defined.

Lemma reverse_dict_of_repeated_values_witness :
  support_functions.reverse_dict items_aab false false
  = Err (Exn KeyError
           [Lit "Invalid dicionary in reverse_dict: the dictionary is not injective."]).
Proof.
  apply (proj1 (reverse_dict_of_repeated_values items_aab false
                  ltac:(by apply (bool_decide_unpack _))
                  ltac:(by apply (bool_decide_unpack _)))).
Defined.
